(** * libneo4j-client: the trust-on-first-use known-hosts store (src/lib/tofu.c)
      and the record interface of result_stream.h.

    The C code is embedded shallowly.  C strings are lists of bytes without
    NUL, a file is the list of its bytes, the file system is a finite map
    from paths to the contents of regular files, and every library call
    that can fail takes its outcome from an explicit environment record,
    as does every buffer that is read before it is written.  Logging and
    the value of errno are left out: no result depends on them. *)

From Stdlib Require Import Ascii String List ZArith Lia DecimalString.
From stdpp Require Import gmap strings list.
From Equations Require Import Equations.

Abbreviation bytes := (list ascii).
Abbreviation fsys := (gmap (list ascii) (list ascii)).

(** Matching on a value while keeping the equation, for the loops below. *)
Definition inspect {A : Type} (x : A) : { y : A | x = y } := exist _ x eq_refl.

(** Literals: the bytes of a Rocq string. *)
Definition s2l (s : string) : bytes := list_ascii_of_string s.

(** ** The fragment of the C library used by tofu.c *)
Module Libc.

Definition NUL : ascii := "000"%char.
Definition LF : ascii := "010"%char.
Definition SP : ascii := " "%char.

(** isspace in the "C" locale: space and the five controls 9 to 13. *)
Definition isspace (c : ascii) : bool :=
  let k := nat_of_ascii c in Nat.eqb k 32 || (Nat.leb 9 k && Nat.leb k 13).

(** The C string a buffer holds: its bytes up to the first NUL. *)
Fixpoint c_str (buf : bytes) : bytes :=
  match buf with
  | [] => []
  | c :: buf' => if Ascii.eqb c NUL then [] else c :: c_str buf'
  end.

(** s[i] for a C string s: the byte at i, the terminator past the end. *)
Definition char_at (s : bytes) (i : nat) : ascii := nth i s NUL.

(** strncmp(a, b, n) == 0 *)
Fixpoint strncmp_eq (a b : bytes) (n : nat) {struct n} : bool :=
  match n with
  | 0 => true
  | S n' =>
      match a, b with
      | [], [] => true
      | x :: a', y :: b' => Ascii.eqb x y && strncmp_eq a' b' n'
      | _, _ => false
      end
  end.

(** strcmp(a, b) == 0 *)
Fixpoint strcmp_eq (a b : bytes) : bool :=
  match a, b with
  | [], [] => true
  | x :: a', y :: b' => Ascii.eqb x y && strcmp_eq a' b'
  | _, _ => false
  end.

(** printf's %d *)
Definition fmt_d (i : Z) : bytes := s2l (NilZero.string_of_int (Z.to_int i)).

(** *** Input streams.  [read_fault = Some k]: the call of fgets after k
    successful ones reports a read error. *)
Record rstream := { unread : bytes; read_fault : option nat }.

(** What fgets stores for a buffer of k+1 bytes: at most k bytes, up to and
    including the first newline. *)
Fixpoint read_chunk (k : nat) (s : bytes) : bytes * bytes :=
  match k, s with
  | 0, _ => ([], s)
  | _, [] => ([], [])
  | S k', c :: s' =>
      if Ascii.eqb c LF then ([c], s')
      else let '(l, r) := read_chunk k' s' in (c :: l, r)
  end.

Inductive fgets_result :=
| FLine (line : bytes) (s : rstream)   (* the C string now in the buffer *)
| FNull (at_eof : bool).               (* NULL; at_eof is what feof says *)

Definition fgets (size : nat) (s : rstream) : fgets_result :=
  match read_fault s with
  | Some 0 => FNull false
  | _ =>
      match unread s with
      | [] => FNull true
      | _ :: _ =>
          let '(l, r) := read_chunk (size - 1) (unread s) in
          FLine (c_str l) {| unread := r; read_fault := Nat.pred <$> read_fault s |}
      end
  end.

(** *** Output streams.  [write_fault = Some k]: the write after k
    successful ones fails. *)
Record wstream := { written : bytes; write_fault : option nat }.

Definition fputs (s : bytes) (o : wstream) : option wstream :=
  match write_fault o with
  | Some 0 => None
  | _ => Some {| written := written o ++ s; write_fault := Nat.pred <$> write_fault o |}
  end.

Lemma read_chunk_length k s :
  length (fst (read_chunk k s)) + length (snd (read_chunk k s)) = length s.
Proof.
  revert s. induction k as [|k IH]; intros [|c s]; simpl; try lia.
  destruct (Ascii.eqb c LF); simpl; [lia|].
  specialize (IH s). destruct (read_chunk k s); simpl in *; lia.
Qed.

Lemma read_chunk_nonempty k c s : fst (read_chunk (S k) (c :: s)) <> [].
Proof.
  simpl. destruct (Ascii.eqb c LF); [discriminate|].
  destruct (read_chunk k s); discriminate.
Qed.

Lemma read_chunk_shorter k c s :
  length (snd (read_chunk (S k) (c :: s))) < length (c :: s).
Proof.
  pose proof (read_chunk_length (S k) (c :: s)) as L.
  pose proof (read_chunk_nonempty k c s) as N.
  destruct (fst (read_chunk (S k) (c :: s))); [congruence|]. simpl in *. lia.
Qed.

(** The raw chunks successive calls of fgets take from a file, for a buffer
    of k+2 bytes, when no read fails. *)
Equations? fgets_chunks (k : nat) (s : bytes) : list bytes by wf (length s) lt :=
  fgets_chunks k [] := [];
  fgets_chunks k (c :: s) :=
    fst (read_chunk (S k) (c :: s))
      :: fgets_chunks k (snd (read_chunk (S k) (c :: s))).
Proof. apply read_chunk_shorter. Qed.

(** The lines of a text: it is cut behind every newline. *)
Fixpoint text_lines (s : bytes) : list bytes :=
  match s with
  | [] => []
  | c :: s' =>
      if Ascii.eqb c LF then [c] :: text_lines s'
      else match text_lines s' with
           | [] => [[c]]
           | l :: ls => (c :: l) :: ls
           end
  end.

Definition no_byte (c : ascii) (s : bytes) : bool :=
  forallb (fun x => negb (Ascii.eqb x c)) s.

Definition no_space (s : bytes) : bool := forallb (fun x => negb (isspace x)) s.

(** Neither the first nor the last byte is white space. *)
Definition trimmed (s : bytes) : bool :=
  match s with [] => true | c :: _ => negb (isspace c) end
  && match last s with None => true | Some c => negb (isspace c) end.

Definition ends_with_newline (s : bytes) : bool :=
  match last s with
  | None => true
  | Some c => Ascii.eqb c LF
  end.

(** A chunk that fgets returns whatever follows it: it ends in the only
    newline it has, or it fills the buffer. *)
Definition complete (k : nat) (c : bytes) : Prop :=
  (exists b, c = b ++ [LF] /\ no_byte LF b = true /\ length b < k)
  \/ (no_byte LF c = true /\ length c = k).

End Libc.

(** ** src/lib/tofu.c *)
Module Tofu.
Import Libc.

Definition NEO4J_MAX_HOST_LENGTH : nat := 512.
Definition NEO4J_MAX_FINGERPRINT_LENGTH : nat := 60.
Definition NEO4J_MAX_KNOWN_HOSTS_LINE_LENGTH : nat := 1024.
Definition NEO4J_TEMP_FILE_SUFFIX : bytes := s2l ".tmpXXXXXX".

Inductive neo4j_unverified_host_reason_t :=
| NEO4J_HOST_VERIFICATION_UNRECOGNIZED
| NEO4J_HOST_VERIFICATION_MISMATCH.

(** The two fields of neo4j_config_t that tofu.c reads.  The callback gets
    the host label, the fingerprint and the reason (its userdata is the
    closure) and returns an int. *)
Record neo4j_config_t := {
  known_hosts_file : option bytes;
  unverified_host_callback :
    option (bytes -> bytes -> neo4j_unverified_host_reason_t -> Z)
}.

(** *** The environment of a call: which library calls fail, and what the
    uninitialised stack buffers happen to hold. *)
Record read_env := {
  open_error : bool;          (* fopen fails, errno is not ENOENT *)
  read_error : option nat     (* see [rstream] *)
}.

Record update_env := {
  in_env : read_env;
  outfile0 : bytes;           (* the C string in [outfile] before it is set *)
  mkdir_p_error : bool;
  mkstemp_error : bool;
  mkstemp_chars : bytes;      (* what mkstemp puts in place of XXXXXX *)
  fdopen_error : bool;
  write_error : option nat;   (* see [wstream] *)
  fclose_in_error : bool;
  fclose_out_error : bool;
  rename_error : bool;
  unlink_error : bool
}.

Record env := {
  dot_dir : option bytes;     (* neo4j_dot_dir: the default path, or failure *)
  lookup_env : read_env;
  existing0 : bytes;          (* the C string in [existing] before it is set *)
  trust_env : update_env
}.

(** The environment in which no call fails; the stack is zeroed and
    mkstemp picks the characters given. *)
Definition quiet_read : read_env :=
  {| open_error := false; read_error := None |}.

Definition quiet_update (chars : bytes) : update_env :=
  {| in_env := quiet_read; outfile0 := []; mkdir_p_error := false;
     mkstemp_error := false; mkstemp_chars := chars; fdopen_error := false;
     write_error := None; fclose_in_error := false;
     fclose_out_error := false; rename_error := false;
     unlink_error := false |}.

Definition quiet (default_path : option bytes) : env :=
  {| dot_dir := default_path; lookup_env := quiet_read; existing0 := [];
     trust_env := quiet_update (s2l "a1B2c3") |}.

Inductive fopen_result :=
| Opened (s : rstream)
| NoEnt
| OpenFailed.

(** fopen(file, "r") *)
Definition fopen_r (e : read_env) (fs : fsys) (file : bytes) : fopen_result :=
  if open_error e then OpenFailed
  else match fs !! file with
       | None => NoEnt
       | Some c => Opened {| unread := c; read_fault := read_error e |}
       end.

(** The test both loops apply to a line:
    strncmp(line, host, hostlen) == 0 && isspace(line[hostlen]) *)
Definition entry_matches (host line : bytes) : bool :=
  strncmp_eq line host (length host) && isspace (char_at line (length host)).

(** for (; isspace( *p ); ++p) ; *)
Fixpoint skip_space (p : bytes) : bytes :=
  match p with
  | [] => []
  | c :: p' => if isspace c then skip_space p' else p
  end.

(** for (; l > 0 && isspace(p[l-1]); --l) ; *)
Fixpoint trim_length (p : bytes) (l : nat) : nat :=
  match l with
  | 0 => 0
  | S l' => if isspace (char_at p l') then trim_length p l' else l
  end.

(** What the matching branch of retrieve_stored_fingerprint leaves in buf.
    n - 1 is computed in size_t: for n = 0 it is SIZE_MAX and min keeps l. *)
Definition stored_fingerprint (host line : bytes) (n : nat) : bytes :=
  let p := skip_space (drop (length host + 1) line) in
  let l := trim_length p (length p) in
  let l := match n with 0 => l | S n' => Nat.min l n' end in
  take l p.

(** The while loop of retrieve_stored_fingerprint with the check of feof
    behind it: the result, and buf when it was written. *)
Equations? scan_known_hosts (host : bytes) (n : nat) (stream : rstream)
  : Z * option bytes by wf (length (unread stream)) lt :=
  scan_known_hosts host n stream
    with inspect (fgets NEO4J_MAX_KNOWN_HOSTS_LINE_LENGTH stream) := {
    | exist _ (FLine line stream') E =>
        if entry_matches host line
        then (0%Z, Some (stored_fingerprint host line n))
        else scan_known_hosts host n stream'
    | exist _ (FNull at_eof) _ =>
        if at_eof then (1%Z, None) else ((-1)%Z, None) }.
Proof.
  unfold fgets in E. destruct (read_fault stream) as [[|k]|];
    try discriminate; destruct (unread stream) as [|c s] eqn:U;
    try discriminate.
  all: destruct (read_chunk _ _) as [l r] eqn:R; inversion E; subst; simpl.
  all: apply (f_equal snd) in R; simpl in R; subst r.
  all: apply (read_chunk_shorter 1022 c s).
Qed.

Definition retrieve_stored_fingerprint (e : read_env) (fs : fsys)
  (file host : bytes) (n : nat) : Z * option bytes :=
  match fopen_r e fs file with
  | NoEnt => (1%Z, None)
  | OpenFailed => ((-1)%Z, None)
  | Opened stream => scan_known_hosts host n stream
  end.

(** *** The file as the two loops see it *)

(** The lines fgets delivers from a known-hosts file into a buffer of 1024
    bytes: the C strings of its chunks of at most 1023 bytes. *)
Definition known_hosts_lines (content : bytes) : list bytes :=
  map c_str (fgets_chunks (NEO4J_MAX_KNOWN_HOSTS_LINE_LENGTH - 2) content).

Definition entries_of (host content : bytes) : list bytes :=
  List.filter (entry_matches host) (known_hosts_lines content).

Definition other_lines (host content : bytes) : list bytes :=
  List.filter (fun line => negb (entry_matches host line))
    (known_hosts_lines content).

(** "%s %s\n" *)
Definition new_entry (host fingerprint : bytes) : bytes :=
  host ++ [SP] ++ fingerprint ++ [LF].

(** The file a successful replace writes in place of [old]. *)
Definition rewritten (old : option bytes) (host fingerprint : bytes) : bytes :=
  match old with
  | Some content => concat (other_lines host content)
  | None => []
  end ++ new_entry host fingerprint.

(** A known-hosts file as a text editor or the store leaves it: no NUL, and
    the last line, if there is one, ends in a newline. *)
Definition text_file (content : bytes) : bool :=
  no_byte NUL content && ends_with_newline content.

(** The known-hosts file, if there is one, is a text file. *)
Definition store_is_text (fs : fsys) (file : bytes) : Prop :=
  match fs !! file with
  | Some content => text_file content = true
  | None => True
  end.

(** *** update_stored_fingerprint *)

(** The open descriptors of a call: the input stream, and the temporary
    file (first as out_fd, then as out_stream). *)
Record handles := { in_open : bool; out_open : bool }.

(** How a call ends: it returns a value, or its behaviour is undefined
    because it hands to fclose a stream that is closed already.  A value
    that is returned is written as the value itself. *)
Inductive completion :=
| Returns (value : Z)
| Undefined.

Coercion Returns : Z >-> completion.
Bind Scope Z_scope with completion.

(** What a call of update_stored_fingerprint leaves: how it ended, and the
    file system and the open descriptors at its return, or at the point
    where its behaviour became undefined. *)
Record update_result := { u_ret : completion; u_fs : fsys; u_open : handles }.

Definition closed : handles := {| in_open := false; out_open := false |}.

Definition close_in (h : handles) : handles :=
  {| in_open := false; out_open := out_open h |}.
Definition close_out (h : handles) : handles :=
  {| in_open := in_open h; out_open := false |}.

(** if (outfile[0] != 0) unlink(outfile);  The result of unlink is not
    looked at: when it fails the file stays. *)
Definition unlink_outfile (e : update_env) (outfile : bytes) (fs : fsys)
  : fsys :=
  match outfile with
  | [] => fs
  | _ :: _ => if unlink_error e then fs else delete outfile fs
  end.

(** The code behind the label failure.  The three booleans are
    in_stream != NULL, out_stream != NULL and out_fd >= 0; [h] says which
    streams are still open.  A pointer that is not NULL is handed to fclose
    whether or not its stream was closed before. *)
Definition failure (e : update_env) (fs : fsys) (h : handles)
  (in_stream out_stream out_fd : bool) (outfile : bytes) : update_result :=
  if in_stream && negb (in_open h)
  then {| u_ret := Undefined; u_fs := fs; u_open := h |}
  else
    let h := if in_stream then close_in h else h in
    if out_stream && negb (out_open h)
    then {| u_ret := Undefined; u_fs := fs; u_open := h |}
    else
      let h := if out_stream then close_out h else h in
      let h := if out_fd then close_out h else h in
      {| u_ret := Returns (-1); u_fs := unlink_outfile e outfile fs;
         u_open := h |}.

(** mkstemp(outfile): a new empty file whose name ends in the characters
    the system picked, or failure (also when that name is taken). *)
Definition mkstemp (e : update_env) (fs : fsys) (template : bytes)
  : option (bytes * fsys) :=
  let name := take (length template - 6) template ++ mkstemp_chars e in
  if mkstemp_error e then None
  else match fs !! name with
       | Some _ => None
       | None => Some (name, <[name := []]> fs)
       end.

Inductive copy_result :=
| CopyDone (out : wstream)
| CopyFailed.

(** The while loop of update_stored_fingerprint with the check of feof
    behind it. *)
Equations? copy_other_hosts (host : bytes) (stream : rstream) (out : wstream)
  : copy_result by wf (length (unread stream)) lt :=
  copy_other_hosts host stream out
    with inspect (fgets NEO4J_MAX_KNOWN_HOSTS_LINE_LENGTH stream) := {
    | exist _ (FLine line stream') E =>
        if entry_matches host line
        then copy_other_hosts host stream' out
        else match fputs line out with
             | None => CopyFailed
             | Some out' => copy_other_hosts host stream' out'
             end
    | exist _ (FNull at_eof) _ =>
        if at_eof then CopyDone out else CopyFailed }.
Proof.
  all: unfold fgets in E; destruct (read_fault stream) as [[|k]|];
    try discriminate; destruct (unread stream) as [|c s] eqn:U;
    try discriminate.
  all: destruct (read_chunk _ _) as [l r] eqn:R; inversion E; subst; simpl.
  all: apply (f_equal snd) in R; simpl in R; subst r.
  all: apply (read_chunk_shorter 1022 c s).
Qed.

Section Client.

(** What tofu.c takes from headers: PATH_MAX of limits.h, neo4j_dirname of
    util.h, and two of the values a callback returns (neo4j-client.h),
    which are distinct as labels of one switch. *)
Variable PATH_MAX : nat.
Variable neo4j_dirname : bytes -> bytes.
Variable NEO4J_HOST_VERIFICATION_TRUST : Z.
Variable NEO4J_HOST_VERIFICATION_ACCEPT_ONCE : Z.

(** The statements from fprintf to the end; in_stream is NULL by then.
    When fclose(out_stream) fails the code goes to failure with out_stream
    not yet set to NULL. *)
Definition write_entry_and_rename (e : update_env) (fs : fsys) (h : handles)
  (file host fingerprint outfile : bytes) (out : wstream) : update_result :=
  match fputs (new_entry host fingerprint) out with
  | None => failure e fs h false true false outfile
  | Some out =>
      let h := close_out h in               (* fclose closes, also when it fails *)
      if fclose_out_error e then failure e fs h false true false outfile
      else
        let fs := <[outfile := written out]> fs in
        if rename_error e then failure e fs h false false false outfile
        else {| u_ret := Returns 0;
                u_fs := <[file := written out]> (delete outfile fs);
                u_open := h |}
  end.

Definition update_stored_fingerprint (e : update_env) (fs : fsys)
  (file host fingerprint : bytes) : update_result :=
  match fopen_r (in_env e) fs file with
  | OpenFailed => {| u_ret := Returns (-1); u_fs := fs; u_open := closed |}
  | opened =>
      let in_stream := match opened with Opened s => Some s | _ => None end in
      let h := {| in_open := bool_decide (is_Some in_stream); out_open := false |} in
      let filelen := length file in
      let suffixlen := length NEO4J_TEMP_FILE_SUFFIX in
      if PATH_MAX <? filelen + suffixlen + 1
      then failure e fs h (in_open h) false false (outfile0 e)
      else
        let outfile := neo4j_dirname file in
        if mkdir_p_error e then failure e fs h (in_open h) false false outfile
        else
          let outfile := file ++ NEO4J_TEMP_FILE_SUFFIX in
          match mkstemp e fs outfile with
          | None => failure e fs h (in_open h) false false []
          | Some (outfile, fs) =>
              let h := {| in_open := in_open h; out_open := true |} in
              if fdopen_error e
              then failure e fs h (in_open h) false true outfile
              else
                let out := {| written := []; write_fault := write_error e |} in
                match in_stream with
                | Some stream =>
                    match copy_other_hosts host stream out with
                    | CopyFailed => failure e fs h true true false outfile
                    | CopyDone out =>
                        (* fclose closes, also when it fails, and in_stream
                           is not yet set to NULL *)
                        if fclose_in_error e
                        then failure e fs (close_in h) true true false outfile
                        else write_entry_and_rename e fs (close_in h)
                               file host fingerprint outfile out
                    end
                | None =>
                    write_entry_and_rename e fs h file host fingerprint outfile out
                end
          end
  end.

(** *** neo4j_check_known_hosts *)

(** config->known_hosts_file, or the default that neo4j_dot_dir builds. *)
Definition known_hosts_path (e : env) (config : neo4j_config_t) : option bytes :=
  match known_hosts_file config with
  | Some file => Some file
  | None => dot_dir e
  end.

(** snprintf(host, sizeof(host), "%s:%d", hostname, port) *)
Definition host_label (hostname : bytes) (port : Z) : bytes :=
  take (NEO4J_MAX_HOST_LENGTH - 1) (hostname ++ s2l ":" ++ fmt_d port).

(** What a call of neo4j_check_known_hosts leaves: how it ended, the calls
    of the callback, and the file system. *)
Record outcome := {
  ret : completion;
  calls : list (bytes * bytes * neo4j_unverified_host_reason_t);
  fs_after : fsys
}.

(** Modelled from the spec: the macro REQUIRE of util.h, a header that is
    missing.  An invalid argument is surfaced immediately from the failing
    call: when the condition fails the function returns [res]. *)
Definition REQUIRE {A : Type} (cond : bool) (res : A) (rest : A) : A :=
  if cond then rest else res.

(** strlen(hostname) < 256 && hostname[0] != 0 *)
Definition hostname_ok (hostname : bytes) : bool :=
  (length hostname <? 256) && negb (Ascii.eqb (char_at hostname 0) NUL).

Definition neo4j_check_known_hosts (e : env) (fs : fsys)
  (hostname : bytes) (port : Z) (fingerprint : bytes)
  (config : neo4j_config_t) : outcome :=
  let done r := {| ret := Returns r; calls := []; fs_after := fs |} in
  REQUIRE (hostname_ok hostname) (done (-1)%Z)
  match known_hosts_path e config with
  | None => done (-1)%Z
  | Some file =>
      let host := host_label hostname port in
      let '(result, buf) :=
        retrieve_stored_fingerprint (lookup_env e) fs file host
          NEO4J_MAX_FINGERPRINT_LENGTH in
      let existing := match buf with Some s => s | None => existing0 e end in
      if (0 <? result)%Z || negb (strcmp_eq fingerprint existing) then
        let reason := if (result =? 0)%Z
                      then NEO4J_HOST_VERIFICATION_MISMATCH
                      else NEO4J_HOST_VERIFICATION_UNRECOGNIZED in
        match unverified_host_callback config with
        | None => done 1%Z
        | Some callback =>
            let action := callback host fingerprint reason in
            let called := [(host, fingerprint, reason)] in
            if (action =? NEO4J_HOST_VERIFICATION_TRUST)%Z then
              let u := update_stored_fingerprint (trust_env e) fs file host
                         fingerprint in
              match u_ret u with
              | Returns 0 =>
                  {| ret := Returns 0; calls := called; fs_after := u_fs u |}
              | Returns _ =>
                  {| ret := Returns (-1); calls := called; fs_after := u_fs u |}
              | Undefined =>
                  {| ret := Undefined; calls := called; fs_after := u_fs u |}
              end
            else if (action =? NEO4J_HOST_VERIFICATION_ACCEPT_ONCE)%Z then
              {| ret := Returns 0; calls := called; fs_after := fs |}
            else {| ret := Returns 1; calls := called; fs_after := fs |}
        end
      else done result
  end.

End Client.

End Tofu.

(** ** The record interface of result_stream.h *)
Module ResultStream.

(** Modelled from the spec: neo4j_value_t of neo4j-client.h, a header that
    is missing.  A value is a tagged sum over the types of the wire
    protocol; a float is kept as its 64 bits, a graph entity as its
    fields. *)
#[warnings="-register-all"] Inductive neo4j_value_t :=
| neo4j_null
| neo4j_bool (b : bool)
| neo4j_int (i : Z)
| neo4j_float (bits : Z)
| neo4j_string (s : bytes)
| neo4j_bytes (b : bytes)
| neo4j_list (items : list neo4j_value_t)
| neo4j_map (entries : list (bytes * neo4j_value_t))
| neo4j_node (properties : list neo4j_value_t)
| neo4j_relationship (properties : list neo4j_value_t)
| neo4j_path (steps : list neo4j_value_t).

(** Modelled from the spec: the data of a record, of which result_stream.h
    shows only the three function pointers.  A record is an ordered
    sequence of nfields values, with a retain count and a flag that says
    whether it was handed to the consumer. *)
Record neo4j_result_t := {
  values : list neo4j_value_t;
  retain_count : nat;
  delivered : bool
}.

Definition nfields (self : neo4j_result_t) : nat := length (values self).

(** Modelled from the spec: the function behind the pointer [field] of
    struct neo4j_result, of which result_stream.h has only the declaration.
    field(i) returns the i-th value; an index out of range returns the
    null value. *)
Definition field (self : neo4j_result_t) (index : nat) : neo4j_value_t :=
  if index <? nfields self
  then nth index (values self) neo4j_null
  else neo4j_null.

End ResultStream.

Import Libc Tofu.

(** ** Scenarios *)

(** One choice of what the headers fix: PATH_MAX of Linux, the values of
    neo4j-client.h, and a dirname that cuts the last component. *)
Fixpoint up_to_last_slash (path : bytes) : option bytes :=
  match path with
  | [] => None
  | c :: path' =>
      match up_to_last_slash path' with
      | Some d => Some (c :: d)
      | None => if Ascii.eqb c "/" then Some [] else None
      end
  end.

Definition parent_dir (path : bytes) : bytes :=
  match up_to_last_slash path with
  | Some [] => s2l "/"
  | Some d => d
  | None => s2l "."
  end.

Definition replace := update_stored_fingerprint 4096 parent_dir.
Definition verify := neo4j_check_known_hosts 4096 parent_dir 2 1.

Definition known_certs : bytes := s2l "/home/u/.neo4j/known_certs".
Definition db_example : bytes := s2l "db.example:7687".
Definition store_AABB : fsys := {[ known_certs := db_example ++ s2l " AA:BB" ++ [LF] ]}.
Definition config_of callback : neo4j_config_t :=
  {| known_hosts_file := Some known_certs; unverified_host_callback := callback |}.

(** A line of 1030 bytes keyed by b:2. *)
Definition long_line (tail : string) : bytes :=
  s2l "b:2 " ++ repeat "A"%char 1019 ++ s2l tail ++ [LF].

(** * Facts about the C library fragment *)
Section LibcFacts.

Lemma no_byte_app c a b : no_byte c (a ++ b) = no_byte c a && no_byte c b.
Proof. apply forallb_app. Qed.

Lemma read_chunk_line k b rest :
  no_byte LF b = true -> length b < k ->
  read_chunk k (b ++ LF :: rest) = (b ++ [LF], rest).
Proof.
  revert k. induction b as [|x b IH]; intros [|k] N L; simpl in *; try lia.
  - reflexivity.
  - apply andb_prop in N as [N1 N2]. apply negb_true_iff in N1. rewrite N1.
    rewrite IH by (auto; lia). reflexivity.
Qed.

Lemma read_chunk_full k c rest :
  no_byte LF c = true -> length c = k -> read_chunk k (c ++ rest) = (c, rest).
Proof.
  revert k. induction c as [|x c IH]; intros [|k] N L; simpl in *; try lia.
  - reflexivity.
  - apply andb_prop in N as [N1 N2]. apply negb_true_iff in N1. rewrite N1.
    rewrite IH by (auto; lia). reflexivity.
Qed.

Lemma read_chunk_complete k c rest :
  complete k c -> read_chunk k (c ++ rest) = (c, rest).
Proof.
  intros [(b & -> & N & L)|[N L]].
  - rewrite <- app_assoc. simpl. apply read_chunk_line; assumption.
  - apply read_chunk_full; assumption.
Qed.

(** What read_chunk returns: a complete chunk, or the unterminated rest of
    the file. *)
Lemma read_chunk_spec k s :
  s = fst (read_chunk k s) ++ snd (read_chunk k s) /\
  (complete k (fst (read_chunk k s)) \/
   (snd (read_chunk k s) = [] /\ no_byte LF (fst (read_chunk k s)) = true)).
Proof.
  revert s. induction k as [|k IH]; intros [|x s]; simpl.
  - split; [reflexivity|]. right. split; reflexivity.
  - split; [reflexivity|]. left. right. split; reflexivity.
  - split; [reflexivity|]. right. split; reflexivity.
  - destruct (Ascii.eqb x LF) eqn:E; simpl.
    + apply Ascii.eqb_eq in E. subst x. split; [reflexivity|].
      left. left. exists []. repeat split; simpl; lia.
    + destruct (IH s) as [A B]. destruct (read_chunk k s) as [l r]. simpl in *.
      split; [congruence|].
      destruct B as [[(b & -> & N & L)|[N L]]|[-> N]].
      * left. left. exists (x :: b). simpl. rewrite E, N. repeat split. lia.
      * left. right. simpl. rewrite E, N, L. split; reflexivity.
      * right. simpl. rewrite E, N. split; reflexivity.
Qed.

Lemma fgets_chunks_complete k c rest :
  complete (S k) c -> fgets_chunks k (c ++ rest) = c :: fgets_chunks k rest.
Proof.
  intros C. pose proof (read_chunk_complete _ _ rest C) as R.
  destruct c as [|x c].
  { destruct C as [(b & E & _)|[_ L]]; [destruct b; discriminate|discriminate]. }
  simpl app in *. rewrite fgets_chunks_equation_2, R. reflexivity.
Qed.

Lemma fgets_chunks_concat k cs rest :
  Forall (complete (S k)) cs ->
  fgets_chunks k (concat cs ++ rest) = cs ++ fgets_chunks k rest.
Proof.
  induction 1 as [|c cs C _ IH]; simpl; [reflexivity|].
  rewrite <- app_assoc, fgets_chunks_complete, IH by assumption. reflexivity.
Qed.

Lemma concat_fgets_chunks k s : concat (fgets_chunks k s) = s.
Proof.
  funelim (fgets_chunks k s); [reflexivity|].
  cbn [concat]. rewrite H. symmetry. apply read_chunk_spec.
Qed.

Lemma ends_with_newline_app a b :
  b <> [] -> ends_with_newline (a ++ b) = ends_with_newline b.
Proof.
  intros N. unfold ends_with_newline. rewrite last_app.
  destruct (last b) eqn:E; [reflexivity|].
  apply last_None in E. contradiction.
Qed.

Lemma no_byte_last c s : no_byte c s = true -> last s <> Some c.
Proof.
  induction s as [|x s IH]; simpl; [discriminate|].
  intros H. apply andb_prop in H as [H1 H2].
  destruct s as [|y s]; simpl in *.
  - intros [= ->]. rewrite Ascii.eqb_refl in H1. discriminate.
  - apply IH. assumption.
Qed.

(** In a file whose last byte is a newline every chunk is complete. *)
Lemma fgets_chunks_all_complete k s :
  ends_with_newline s = true -> Forall (complete (S k)) (fgets_chunks k s).
Proof.
  funelim (fgets_chunks k s); intros T; [constructor|].
  destruct (read_chunk_spec (S k) (c :: s)) as [A B].
  destruct (read_chunk (S k) (c :: s)) as [l r] eqn:R.
  simpl fst in *; simpl snd in *.
  destruct B as [C|[-> N]].
  - constructor; [assumption|]. apply H.
    destruct r as [|y r]; [reflexivity|].
    rewrite A in T. rewrite ends_with_newline_app in T by discriminate. exact T.
  - exfalso. rewrite app_nil_r in A. subst l.
    unfold ends_with_newline in T. apply no_byte_last in N.
    destruct (last (c :: s)) eqn:L.
    + apply Ascii.eqb_eq in T. subst. contradiction.
    + apply last_None in L. discriminate.
Qed.

Lemma c_str_no_nul s : no_byte NUL s = true -> c_str s = s.
Proof.
  induction s as [|x s IH]; simpl; [reflexivity|].
  intros H. apply andb_prop in H as [H1 H2]. apply negb_true_iff in H1.
  rewrite H1, IH by assumption. reflexivity.
Qed.

Lemma text_lines_line b rest :
  no_byte LF b = true ->
  text_lines (b ++ LF :: rest) = (b ++ [LF]) :: text_lines rest.
Proof.
  induction b as [|x b IH]; cbn; [reflexivity|].
  intros N. apply andb_prop in N as [N1 N2]. apply negb_true_iff in N1.
  rewrite N1, IH by exact N2. reflexivity.
Qed.

Lemma first_newline s :
  no_byte LF s = false ->
  exists b rest, s = b ++ LF :: rest /\ no_byte LF b = true.
Proof.
  induction s as [|x s IH]; cbn; [discriminate|].
  destruct (Ascii.eqb x LF) eqn:E; cbn.
  - intros _. apply Ascii.eqb_eq in E. subst x. exists [], s. split; reflexivity.
  - intros N. destruct (IH N) as (b & rest & -> & B).
    exists (x :: b), rest. split; [reflexivity|].
    change (no_byte LF (x :: b)) with (negb (Ascii.eqb x LF) && no_byte LF b).
    rewrite E, B. reflexivity.
Qed.

Lemma ends_with_newline_has_newline x s :
  ends_with_newline (x :: s) = true -> no_byte LF (x :: s) = false.
Proof.
  intros T. destruct (no_byte LF (x :: s)) eqn:N; [|reflexivity].
  apply no_byte_last in N. unfold ends_with_newline in T.
  destruct (last (x :: s)) as [c|] eqn:L.
  - apply Ascii.eqb_eq in T. subst c. contradiction.
  - apply last_None in L. discriminate.
Qed.

(** In a text whose lines, newline included, fit the buffer, fgets delivers
    the lines. *)
Lemma fgets_chunks_text_lines k s :
  ends_with_newline s = true ->
  Forall (fun l => length l <= S k) (text_lines s) ->
  fgets_chunks k s = text_lines s.
Proof.
  remember (length s) as m eqn:M. revert s M.
  induction m as [m IH] using lt_wf_ind. intros s -> T F.
  destruct s as [|x s]; [reflexivity|].
  destruct (first_newline _ (ends_with_newline_has_newline _ _ T))
    as (b & rest & E & B).
  rewrite E in *. rewrite text_lines_line in * by exact B.
  apply Forall_cons in F as [Len F]. rewrite length_app in Len. cbn in Len.
  change (b ++ LF :: rest) with (b ++ [LF] ++ rest). rewrite app_assoc.
  rewrite fgets_chunks_complete.
  - f_equal. eapply IH; [|reflexivity| |exact F].
    + rewrite length_app. cbn. lia.
    + destruct rest as [|y rest]; [reflexivity|].
      change (b ++ LF :: y :: rest) with (b ++ [LF] ++ y :: rest) in T.
      rewrite app_assoc, ends_with_newline_app in T by discriminate. exact T.
  - left. exists b. repeat split; [exact B|lia].
Qed.

End LibcFacts.

(** * Facts about tofu.c *)
Section TofuFacts.

Abbreviation LINE := NEO4J_MAX_KNOWN_HOSTS_LINE_LENGTH.

Lemma scan_known_hosts_unfold host n stream :
  scan_known_hosts host n stream =
  match fgets LINE stream with
  | FLine line stream' =>
      if entry_matches host line
      then (0%Z, Some (stored_fingerprint host line n))
      else scan_known_hosts host n stream'
  | FNull at_eof => if at_eof then (1%Z, None) else ((-1)%Z, None)
  end.
Proof.
  rewrite scan_known_hosts_equation_1. unfold inspect.
  generalize (@eq_refl _ (fgets LINE stream)).
  generalize (fgets LINE stream) at 2 4 5.
  intros y e. destruct y; reflexivity.
Qed.

Lemma copy_other_hosts_unfold host stream out :
  copy_other_hosts host stream out =
  match fgets LINE stream with
  | FLine line stream' =>
      if entry_matches host line
      then copy_other_hosts host stream' out
      else match fputs line out with
           | None => CopyFailed
           | Some out' => copy_other_hosts host stream' out'
           end
  | FNull at_eof => if at_eof then CopyDone out else CopyFailed
  end.
Proof.
  rewrite copy_other_hosts_equation_1. unfold inspect.
  generalize (@eq_refl _ (fgets LINE stream)).
  generalize (fgets LINE stream) at 2 4 5.
  intros y e. destruct y; reflexivity.
Qed.

(** fgets on a stream that has bytes left and no error due. *)
Lemma fgets_line c s f :
  f <> Some 0 ->
  fgets LINE {| unread := c :: s; read_fault := f |} =
  FLine (c_str (fst (read_chunk (S (LINE - 2)) (c :: s))))
        {| unread := snd (read_chunk (S (LINE - 2)) (c :: s));
           read_fault := Nat.pred <$> f |}.
Proof.
  intros F. unfold fgets. cbn [read_fault unread].
  change (LINE - 1) with (S (LINE - 2)).
  destruct (read_chunk (S (LINE - 2)) (c :: s)) as [l r].
  destruct f as [[|k]|]; [congruence|reflexivity|reflexivity].
Qed.

Lemma known_hosts_lines_cons c s :
  known_hosts_lines (c :: s) =
  c_str (fst (read_chunk (S (LINE - 2)) (c :: s)))
    :: known_hosts_lines (snd (read_chunk (S (LINE - 2)) (c :: s))).
Proof. unfold known_hosts_lines. rewrite fgets_chunks_equation_2. reflexivity. Qed.

(** Without read errors the lookup loop returns the first line that
    matches. *)
Lemma scan_known_hosts_find host n s :
  scan_known_hosts host n {| unread := s; read_fault := None |} =
  match List.find (entry_matches host) (known_hosts_lines s) with
  | Some line => (0%Z, Some (stored_fingerprint host line n))
  | None => (1%Z, None)
  end.
Proof.
  remember (length s) as m eqn:M. revert s M.
  induction m as [m IH] using lt_wf_ind. intros s ->.
  rewrite scan_known_hosts_unfold. destruct s as [|c s]; [reflexivity|].
  rewrite fgets_line by discriminate. rewrite known_hosts_lines_cons.
  cbn [List.find]. destruct (entry_matches host _); [reflexivity|].
  eapply IH; [|reflexivity]. apply read_chunk_shorter.
Qed.

(** A read error can only turn the result of the lookup loop into -1. *)
Lemma scan_known_hosts_fault host n s f :
  scan_known_hosts host n {| unread := s; read_fault := f |} = ((-1)%Z, None)
  \/ scan_known_hosts host n {| unread := s; read_fault := f |} =
     scan_known_hosts host n {| unread := s; read_fault := None |}.
Proof.
  remember (length s) as m eqn:M. revert s f M.
  induction m as [m IH] using lt_wf_ind. intros s f ->.
  rewrite !scan_known_hosts_unfold.
  destruct (decide (f = Some 0)) as [->|F]; [left; reflexivity|].
  destruct s as [|c s].
  { right. unfold fgets; cbn. destruct f as [[|k]|]; [congruence|reflexivity..]. }
  rewrite !fgets_line by (assumption || discriminate).
  destruct (entry_matches host _); [right; reflexivity|].
  eapply IH; [|reflexivity]. apply read_chunk_shorter.
Qed.

(** When the copy loop ends well it has appended the lines that do not
    match, in order. *)
Lemma copy_other_hosts_done host stream out out' :
  copy_other_hosts host stream out = CopyDone out' ->
  written out' = written out ++ concat (other_lines host (unread stream)).
Proof.
  remember (length (unread stream)) as m eqn:M. revert stream out M.
  induction m as [m IH] using lt_wf_ind. intros [s f] out ->.
  rewrite copy_other_hosts_unfold. cbn [unread].
  destruct (decide (f = Some 0)) as [->|F]; [discriminate|].
  destruct s as [|c s].
  { unfold fgets; cbn. destruct f as [[|k]|]; [congruence| |];
      intros [= <-]; rewrite app_nil_r; reflexivity. }
  rewrite fgets_line by assumption.
  unfold other_lines. rewrite known_hosts_lines_cons. cbn [List.filter].
  destruct (entry_matches host _); cbn [negb].
  - intros D. eapply IH in D; [exact D| |reflexivity]. apply read_chunk_shorter.
  - unfold fputs. destruct (write_fault out) as [[|k]|]; [discriminate| |].
    all: intros D; eapply IH in D; [| |reflexivity];
      [|apply read_chunk_shorter].
    all: rewrite D; cbn [written concat]; rewrite app_assoc; reflexivity.
Qed.


Lemma nth_middle_or (h r : bytes) :
  nth (length h) (h ++ r) NUL = match r with [] => NUL | c :: _ => c end.
Proof.
  induction h as [|y h IH]; cbn; [destruct r; reflexivity|exact IH].
Qed.

(** *** What the line test means *)

Lemma strncmp_eq_prefix line host :
  strncmp_eq line host (length host) = true <-> exists r, line = host ++ r.
Proof.
  revert line. induction host as [|y host IH]; intros line; cbn.
  - split; [intros _; exists line; reflexivity|reflexivity].
  - destruct line as [|x line].
    + split; [discriminate|intros [r R]; discriminate].
    + rewrite andb_true_iff, Ascii.eqb_eq, IH. split.
      * intros [-> [r ->]]. exists r. reflexivity.
      * intros [r [= -> ->]]. split; [reflexivity|]. exists r. reflexivity.
Qed.

Lemma isspace_NUL : isspace NUL = false.
Proof. reflexivity. Qed.

Lemma entry_matches_spec host line :
  entry_matches host line = true <->
  exists c r, line = host ++ c :: r /\ isspace c = true.
Proof.
  unfold entry_matches, char_at. rewrite andb_true_iff, strncmp_eq_prefix. split.
  - intros [[r ->] S]. rewrite nth_middle_or in S.
    destruct r as [|c r]; [rewrite isspace_NUL in S; discriminate|].
    exists c, r. split; [reflexivity|exact S].
  - intros (c & r & -> & S). split; [exists (c :: r); reflexivity|].
    rewrite nth_middle_or. exact S.
Qed.

(** *** update_stored_fingerprint, path by path *)

Variable PATH_MAX : nat.
Variable neo4j_dirname : bytes -> bytes.

Abbreviation update := (update_stored_fingerprint PATH_MAX neo4j_dirname).

Lemma temp_name_template file chars :
  take (length (file ++ NEO4J_TEMP_FILE_SUFFIX) - 6)
    (file ++ NEO4J_TEMP_FILE_SUFFIX) ++ chars
  = file ++ s2l ".tmp" ++ chars.
Proof.
  rewrite length_app. replace (length file + length NEO4J_TEMP_FILE_SUFFIX - 6)
    with (length file + 4) by (cbn; lia).
  rewrite take_app_add'  by reflexivity. rewrite <- app_assoc. reflexivity.
Qed.

Lemma temp_name_fresh (file rest : bytes) : file ++ s2l ".tmp" ++ rest <> file.
Proof.
  intros E. apply (f_equal length) in E. rewrite !length_app in E. cbn in E. lia.
Qed.

Lemma write_entry_and_rename_success e fs h file host fp outfile out :
  fs !! outfile = Some [] -> outfile <> file ->
  u_ret (write_entry_and_rename e fs h file host fp outfile out) = 0%Z ->
  u_fs (write_entry_and_rename e fs h file host fp outfile out)
    = <[file := written out ++ new_entry host fp]> (delete outfile fs)
  /\ u_open (write_entry_and_rename e fs h file host fp outfile out)
    = close_out h.
Proof.
  intros T N. unfold write_entry_and_rename, fputs, failure.
  destruct h as [i o]. cbn [in_open out_open close_out andb negb].
  destruct (write_fault out) as [[|k]|]; [destruct o; discriminate| |].
  all: destruct (fclose_out_error e); [discriminate|].
  all: destruct (rename_error e); [discriminate|].
  all: intros _; cbn [u_fs u_open written]; rewrite delete_insert_eq; auto.
Qed.

(** A successful replace writes the lines of other hosts and the new entry,
    touches no other file and leaves nothing open. *)
Lemma update_stored_fingerprint_success e fs file host fp :
  u_ret (update e fs file host fp) = 0%Z ->
  u_fs (update e fs file host fp) = <[file := rewritten (fs !! file) host fp]> fs
  /\ u_open (update e fs file host fp) = closed.
Proof.
  unfold update_stored_fingerprint, fopen_r, mkstemp.
  rewrite temp_name_template.
  set (tmp := file ++ s2l ".tmp" ++ mkstemp_chars e).
  assert (tmp <> file) as N by apply temp_name_fresh.
  destruct (open_error (in_env e)); [discriminate|].
  destruct (fs !! file) as [content|] eqn:F.
  all: destruct (PATH_MAX <? _); [cbn; discriminate|].
  all: destruct (mkdir_p_error e); [cbn; discriminate|].
  all: destruct (mkstemp_error e); [cbn; discriminate|].
  all: destruct (fs !! tmp) eqn:T; [cbn; discriminate|].
  all: destruct (fdopen_error e); [cbn; discriminate|].
  - destruct (copy_other_hosts host _ _) as [out|] eqn:C; [|cbn; discriminate].
    destruct (fclose_in_error e); [cbn; discriminate|].
    apply copy_other_hosts_done in C. cbn [written unread app] in C.
    intros R. apply write_entry_and_rename_success in R;
      [|apply lookup_insert_eq|exact N].
    destruct R as [-> ->]. rewrite C, delete_insert_eq, delete_id by exact T.
    split; reflexivity.
  - intros R. apply write_entry_and_rename_success in R;
      [|apply lookup_insert_eq|exact N].
    destruct R as [-> ->]. rewrite delete_insert_eq, delete_id by exact T.
    split; reflexivity.
Qed.

Lemma unlink_outfile_temp (e : update_env) (file rest : bytes) (fs : fsys) :
  unlink_outfile e (file ++ s2l ".tmp" ++ rest) fs
  = if unlink_error e then fs else delete (file ++ s2l ".tmp" ++ rest) fs.
Proof. destruct file; reflexivity. Qed.

(** A replace that returns a value other than 0 returns -1 with nothing
    open.  The file system is as before, up to the one name the failure
    code unlinks before the temporary file has its name, and up to the
    temporary file when unlink fails. *)
Lemma update_stored_fingerprint_failure e fs file host fp v :
  u_ret (update e fs file host fp) = Returns v -> v <> 0%Z ->
  v = (-1)%Z
  /\ u_open (update e fs file host fp) = closed
  /\ (u_fs (update e fs file host fp) = fs
      \/ (PATH_MAX < length file + length NEO4J_TEMP_FILE_SUFFIX + 1
          /\ u_fs (update e fs file host fp)
             = unlink_outfile e (outfile0 e) fs)
      \/ (mkdir_p_error e = true
          /\ u_fs (update e fs file host fp)
             = unlink_outfile e (neo4j_dirname file) fs)
      \/ (unlink_error e = true
          /\ fs !! (file ++ s2l ".tmp" ++ mkstemp_chars e) = None
          /\ exists c,
               u_fs (update e fs file host fp)
               = <[file ++ s2l ".tmp" ++ mkstemp_chars e := c]> fs)).
Proof.
  unfold update_stored_fingerprint, fopen_r, mkstemp, write_entry_and_rename,
    fputs, failure.
  rewrite temp_name_template.
  set (tmp := file ++ s2l ".tmp" ++ mkstemp_chars e).
  assert (forall m : fsys, unlink_outfile e tmp m
            = if unlink_error e then m else delete tmp m) as U
    by (intros m; apply unlink_outfile_temp).
  assert (forall c, fs !! tmp = None ->
            unlink_outfile e tmp (<[tmp := c]> fs) = fs
            \/ unlink_error e = true /\ fs !! tmp = None
               /\ exists c', unlink_outfile e tmp (<[tmp := c]> fs)
                             = <[tmp := c']> fs) as K.
  { intros c T. rewrite U. destruct (unlink_error e).
    - right. split; [reflexivity|]. split; [exact T|]. exists c. reflexivity.
    - left. rewrite delete_insert_eq. apply delete_id, T. }
  destruct (open_error (in_env e));
    [cbn; intros [= <-] _; auto|].
  destruct (fs !! file) as [content|] eqn:F.
  all: destruct (PATH_MAX <? _) eqn:P;
    [apply Nat.ltb_lt in P; cbn; intros [= <-] _; auto 7|].
  all: destruct (mkdir_p_error e); [cbn; intros [= <-] _; auto 7|].
  all: destruct (mkstemp_error e); [cbn; intros [= <-] _; auto|].
  all: destruct (fs !! tmp) eqn:T; [cbn; intros [= <-] _; auto|].
  all: destruct (fdopen_error e);
    [cbn; intros [= <-] _; destruct (K [] eq_refl) as [->|?]; auto 7|].
  1: destruct (copy_other_hosts host _ _) as [out|] eqn:C;
    [|cbn; intros [= <-] _; destruct (K [] eq_refl) as [->|?]; auto 7].
  1: destruct (fclose_in_error e); [cbn; discriminate|].
  1: destruct (write_fault out) as [[|k]|].
  4: cbn [write_fault]; destruct (write_error e) as [[|k]|].
  all: try (destruct (fclose_out_error e); [cbn; discriminate|];
            destruct (rename_error e)).
  all: cbn; intros [= <-] D; try congruence.
  all: rewrite ?insert_insert_eq.
  all: match goal with
       | |- context [unlink_outfile _ _ (<[_ := ?c]> _)] =>
           destruct (K c eq_refl) as [->|?]; auto 7
       end.
Qed.

(** The behaviour of a replace is undefined only when an fclose has
    failed; the temporary file is then still there. *)
Lemma update_stored_fingerprint_undefined e fs file host fp :
  u_ret (update e fs file host fp) = Undefined ->
  (fclose_in_error e = true \/ fclose_out_error e = true)
  /\ fs !! (file ++ s2l ".tmp" ++ mkstemp_chars e) = None
  /\ u_fs (update e fs file host fp)
     = <[file ++ s2l ".tmp" ++ mkstemp_chars e := []]> fs.
Proof.
  unfold update_stored_fingerprint, fopen_r, mkstemp, write_entry_and_rename,
    fputs, failure.
  rewrite temp_name_template.
  set (tmp := file ++ s2l ".tmp" ++ mkstemp_chars e).
  destruct (open_error (in_env e)); [cbn; discriminate|].
  destruct (fs !! file) as [content|] eqn:F.
  all: destruct (PATH_MAX <? _); [cbn; discriminate|].
  all: destruct (mkdir_p_error e); [cbn; discriminate|].
  all: destruct (mkstemp_error e); [cbn; discriminate|].
  all: destruct (fs !! tmp) eqn:T; [cbn; discriminate|].
  all: destruct (fdopen_error e); [cbn; discriminate|].
  1: destruct (copy_other_hosts host _ _) as [out|] eqn:C;
    [|cbn; discriminate].
  1: destruct (fclose_in_error e); [cbn; auto|].
  1: destruct (write_fault out) as [[|k]|].
  4: cbn [write_fault]; destruct (write_error e) as [[|k]|].
  all: try (destruct (fclose_out_error e); [cbn; auto|];
            destruct (rename_error e)).
  all: cbn; discriminate.
Qed.

(** *** The lines of a rewritten file *)

Lemma no_byte_concat c (l : list bytes) :
  no_byte c (concat l) = true -> Forall (fun x => no_byte c x = true) l.
Proof.
  induction l as [|x l IH]; cbn [concat]; [constructor|].
  rewrite no_byte_app, andb_true_iff. intros [A B]. constructor; auto.
Qed.

Lemma known_hosts_lines_chunks s :
  no_byte NUL s = true ->
  known_hosts_lines s = fgets_chunks (LINE - 2) s.
Proof.
  intros N. unfold known_hosts_lines.
  rewrite <- (concat_fgets_chunks (LINE - 2) s) in N.
  apply no_byte_concat in N. induction N as [|x l X _ IH]; [reflexivity|].
  cbn [map]. rewrite c_str_no_nul, IH by assumption. reflexivity.
Qed.

(** For a text file whose lines, newline included, have at most 1023 bytes
    the lines that the loops see are the lines of the text. *)
Lemma known_hosts_lines_text_lines content :
  text_file content = true ->
  Forall (fun l => length l <= LINE - 1) (text_lines content) ->
  known_hosts_lines content = text_lines content.
Proof.
  unfold text_file. rewrite andb_true_iff. intros [N T] F.
  rewrite known_hosts_lines_chunks by exact N.
  apply fgets_chunks_text_lines; assumption.
Qed.

Lemma Forall_filter_bool {A} (P : A -> Prop) (f : A -> bool) l :
  Forall P l -> Forall P (List.filter f l).
Proof.
  induction 1 as [|x l X _ IH]; cbn; [constructor|].
  destruct (f x); [constructor|]; assumption.
Qed.

Lemma no_byte_other_lines host content :
  no_byte NUL content = true ->
  no_byte NUL (concat (other_lines host content)) = true.
Proof.
  intros N. unfold other_lines. rewrite known_hosts_lines_chunks by exact N.
  rewrite <- (concat_fgets_chunks (LINE - 2) content) in N.
  apply no_byte_concat in N. apply (Forall_filter_bool _
    (fun line => negb (entry_matches host line))) in N.
  induction N as [|x l X _ IH]; [reflexivity|].
  cbn [concat]. rewrite no_byte_app, X, IH. reflexivity.
Qed.

(** The rewrite of a text file reads back as the lines that were kept,
    followed by what the new entry reads as. *)
Lemma known_hosts_lines_rewritten old host fp :
  match old with Some content => text_file content = true | None => True end ->
  known_hosts_lines (rewritten old host fp)
  = match old with Some content => other_lines host content | None => [] end
    ++ known_hosts_lines (new_entry host fp).
Proof.
  destruct old as [content|]; [|reflexivity].
  unfold text_file. rewrite andb_true_iff. intros [N T]. unfold rewritten.
  pose proof (no_byte_other_lines host content N) as K.
  unfold known_hosts_lines at 1. unfold other_lines in *.
  rewrite known_hosts_lines_chunks in * by exact N.
  rewrite fgets_chunks_concat, map_app.
  - f_equal. apply no_byte_concat in K.
    induction K as [|x l X _ IH]; [reflexivity|].
    cbn [map]. rewrite c_str_no_nul, IH by assumption. reflexivity.
  - apply Forall_filter_bool, fgets_chunks_all_complete, T.
Qed.

(** An entry without NUL and newline that fits the line buffer is read back
    as one line. *)
Lemma known_hosts_lines_new_entry host fp :
  no_byte NUL host = true -> no_byte NUL fp = true ->
  no_byte LF host = true -> no_byte LF fp = true ->
  length (new_entry host fp) <= LINE - 1 ->
  known_hosts_lines (new_entry host fp) = [new_entry host fp].
Proof.
  intros N1 N2 L1 L2 Len.
  assert (no_byte NUL (new_entry host fp) = true) as N.
  { unfold new_entry. rewrite !no_byte_app, N1, N2. reflexivity. }
  rewrite known_hosts_lines_chunks by exact N.
  rewrite <- (app_nil_r (new_entry host fp)) at 1.
  rewrite fgets_chunks_complete; [reflexivity|].
  left. exists (host ++ [SP] ++ fp). unfold new_entry in *.
  rewrite !length_app in Len. cbn [length] in Len.
  split; [rewrite <- !app_assoc; reflexivity|].
  split; [rewrite !no_byte_app, L1, L2; reflexivity|].
  rewrite !length_app. cbn [length].
  change (LINE - 1) with (S (LINE - 2)) in Len. lia.
Qed.

Lemma entry_matches_new_entry host fp :
  entry_matches host (new_entry host fp) = true.
Proof.
  apply entry_matches_spec. exists SP, (fp ++ [LF]). split; reflexivity.
Qed.

Lemma filter_other_lines host content :
  List.filter (entry_matches host) (other_lines host content) = [].
Proof.
  unfold other_lines. induction (known_hosts_lines content) as [|x l IH];
    [reflexivity|].
  cbn. destruct (entry_matches host x) eqn:E; cbn; [exact IH|].
  rewrite E. exact IH.
Qed.

Lemma find_other_lines host content rest :
  List.find (entry_matches host) (other_lines host content ++ rest)
  = List.find (entry_matches host) rest.
Proof.
  unfold other_lines. induction (known_hosts_lines content) as [|x l IH];
    [reflexivity|].
  cbn. destruct (entry_matches host x) eqn:E; cbn; [exact IH|].
  rewrite E. exact IH.
Qed.

End TofuFacts.

(** * The store and the verifier *)
Section StoreFacts.
Abbreviation LINE := NEO4J_MAX_KNOWN_HOSTS_LINE_LENGTH.

Lemma drop_host_label host rest :
  drop (length host + 1) (host ++ SP :: rest) = rest.
Proof. induction host as [|y host IH]; [reflexivity|exact IH]. Qed.

Lemma skip_space_trimmed fp :
  trimmed fp = true ->
  skip_space (fp ++ [LF]) = match fp with [] => [] | _ :: _ => fp ++ [LF] end.
Proof.
  destruct fp as [|c fp]; [reflexivity|].
  unfold trimmed. rewrite andb_true_iff, negb_true_iff. intros [H _].
  cbn. rewrite H. reflexivity.
Qed.

Lemma char_at_last (s r : bytes) c :
  last s = Some c -> char_at (s ++ r) (length s - 1) = c.
Proof.
  unfold char_at. induction s as [|x s IH]; [discriminate|].
  destruct s as [|y s]; cbn in *; [intros [= ->]; reflexivity|].
  intros L. rewrite <- (IH L). rewrite Nat.sub_0_r. reflexivity.
Qed.

Lemma trim_length_trimmed c fp :
  trimmed (c :: fp) = true ->
  trim_length ((c :: fp) ++ [LF]) (length ((c :: fp) ++ [LF])) = length (c :: fp).
Proof.
  unfold trimmed. rewrite andb_true_iff. intros [_ H].
  rewrite length_app, Nat.add_1_r. cbn [trim_length].
  unfold char_at at 1. rewrite nth_middle_or. cbn [isspace].
  replace (isspace LF) with true by reflexivity.
  destruct (last (c :: fp)) as [d|] eqn:L; [|apply last_None in L; discriminate].
  apply negb_true_iff in H.
  change (length (c :: fp)) with (S (length fp)). cbn [trim_length].
  pose proof (char_at_last (c :: fp) [LF] d L) as E.
  replace (length (c :: fp) - 1) with (length fp) in E by (cbn [length]; lia).
  rewrite E, H. reflexivity.
Qed.

(** What a lookup extracts from the entry that a replace wrote. *)
Lemma stored_fingerprint_new_entry host fp n :
  trimmed fp = true -> 0 < n ->
  stored_fingerprint host (new_entry host fp) n = take (n - 1) fp.
Proof.
  intros T N. unfold stored_fingerprint, new_entry. cbn [app].
  rewrite drop_host_label, skip_space_trimmed by exact T.
  destruct n as [|n]; [lia|]. rewrite Nat.sub_succ, Nat.sub_0_r.
  destruct fp as [|c fp]; [destruct n; reflexivity|].
  rewrite trim_length_trimmed by exact T.
  destruct (Nat.le_ge_cases n (length (c :: fp))) as [L|L].
  - rewrite Nat.min_r by exact L. apply take_app_le. exact L.
  - rewrite Nat.min_l by exact L. rewrite take_app_length.
    symmetry. apply take_ge. exact L.
Qed.

Variable PATH_MAX : nat.
Variable neo4j_dirname : bytes -> bytes.
Abbreviation update := (update_stored_fingerprint PATH_MAX neo4j_dirname).

(** A lookup in a file that reads back as [lines]. *)
Lemma retrieve_stored_fingerprint_lines re fs file host n content :
  fs !! file = Some content ->
  fst (retrieve_stored_fingerprint re fs file host n) <> (-1)%Z ->
  retrieve_stored_fingerprint re fs file host n =
  match List.find (entry_matches host) (known_hosts_lines content) with
  | Some line => (0%Z, Some (stored_fingerprint host line n))
  | None => (1%Z, None)
  end.
Proof.
  intros F. unfold retrieve_stored_fingerprint, fopen_r. rewrite F.
  destruct (open_error re); [cbn; congruence|].
  destruct (scan_known_hosts_fault host n content (read_error re)) as [E|E];
    rewrite E; [cbn; congruence|].
  intros _. apply scan_known_hosts_find.
Qed.

(** C2, as amended.  Let the known-hosts file be absent or a text file (no
    NUL, the last line ended by a newline), let host and fingerprint hold
    no NUL and no newline, the fingerprint begin and end with a byte that
    is not white space, and the entry "host fingerprint" with its newline
    fit the 1023 bytes fgets reads.  If replace(file, host, fp) succeeds and
    the lookup into a buffer of n > 0 bytes meets no I/O error, the lookup
    returns 0 and the first n - 1 bytes of fp; that is fp itself exactly
    when fp is shorter than n. *)
Theorem replace_then_lookup e re fs file host fp n :
  store_is_text fs file ->
  no_byte NUL host = true -> no_byte NUL fp = true ->
  no_byte LF host = true -> no_byte LF fp = true ->
  trimmed fp = true ->
  length (new_entry host fp) <= LINE - 1 ->
  0 < n ->
  u_ret (update e fs file host fp) = 0%Z ->
  fst (retrieve_stored_fingerprint re (u_fs (update e fs file host fp))
         file host n) <> (-1)%Z ->
  retrieve_stored_fingerprint re (u_fs (update e fs file host fp)) file host n
  = (0%Z, Some (take (n - 1) fp))
  /\ (length fp < n -> take (n - 1) fp = fp).
Proof.
  intros Txt N1 N2 L1 L2 Tr Len Pos Ok Rd.
  destruct (update_stored_fingerprint_success _ _ _ _ _ _ _ Ok) as [Fs _].
  rewrite Fs in *. split; [|intros L; apply take_ge; lia].
  rewrite (retrieve_stored_fingerprint_lines _ _ _ _ _ _
             (lookup_insert_eq _ _ _) Rd).
  rewrite known_hosts_lines_rewritten by exact Txt.
  rewrite known_hosts_lines_new_entry by assumption.
  destruct (fs !! file) as [content|].
  - rewrite find_other_lines. cbn [List.find].
    rewrite entry_matches_new_entry, stored_fingerprint_new_entry by assumption.
    reflexivity.
  - cbn [app List.find].
    rewrite entry_matches_new_entry, stored_fingerprint_new_entry by assumption.
    reflexivity.
Qed.

(** C4, as amended.  Under the same conditions on the file, the host label
    and the fingerprint, after a successful replace(file, host, fp) the
    scan of the new file (line by line, as fgets delivers them) finds
    exactly one line that begins with the host label and white space: the
    entry just written. *)
Theorem replace_leaves_one_entry e fs file host fp :
  store_is_text fs file ->
  no_byte NUL host = true -> no_byte NUL fp = true ->
  no_byte LF host = true -> no_byte LF fp = true ->
  length (new_entry host fp) <= LINE - 1 ->
  u_ret (update e fs file host fp) = 0%Z ->
  exists content,
    u_fs (update e fs file host fp) !! file = Some content
    /\ entries_of host content = [new_entry host fp].
Proof.
  intros Txt N1 N2 L1 L2 Len Ok.
  destruct (update_stored_fingerprint_success _ _ _ _ _ _ _ Ok) as [Fs _].
  rewrite Fs. eexists. split; [apply lookup_insert_eq|].
  unfold entries_of. rewrite known_hosts_lines_rewritten by exact Txt.
  rewrite known_hosts_lines_new_entry by assumption.
  rewrite List.filter_app. cbn [List.filter].
  rewrite entry_matches_new_entry.
  destruct (fs !! file) as [content|]; [|reflexivity].
  rewrite filter_other_lines. reflexivity.
Qed.

(** A line cannot be keyed by two different labels without white space. *)
Lemma entry_matches_exclusive host1 host2 line :
  no_space host1 = true -> no_space host2 = true ->
  entry_matches host1 line = true -> entry_matches host2 line = true ->
  host1 = host2.
Proof.
  assert (forall h1 h2 c1 r1 c2 r2,
    no_space h2 = true -> isspace c1 = true ->
    h1 ++ c1 :: r1 = h2 ++ c2 :: r2 -> length h2 <= length h1) as Le.
  { induction h1 as [|x h1 IH]; intros [|y h2] c1 r1 c2 r2 S2 C1 E;
      cbn in *; try lia.
    - injection E as -> _. apply andb_prop in S2 as [S2 _].
      rewrite C1 in S2. discriminate.
    - injection E as _ E. apply andb_prop in S2 as [_ S2].
      apply le_n_S. eapply IH; eauto. }
  intros S1 S2 M1 M2.
  apply entry_matches_spec in M1 as (c1 & r1 & -> & C1).
  apply entry_matches_spec in M2 as (c2 & r2 & E & C2).
  pose proof (Le _ _ _ _ _ _ S2 C1 E).
  pose proof (Le _ _ _ _ _ _ S1 C2 (eq_sym E)).
  apply app_inj_1 in E as [E _]; [exact E|lia].
Qed.

Lemma entries_of_other_lines host1 host2 content :
  no_space host1 = true -> no_space host2 = true -> host1 <> host2 ->
  List.filter (entry_matches host2) (other_lines host1 content)
  = entries_of host2 content.
Proof.
  intros S1 S2 D. unfold other_lines, entries_of.
  induction (known_hosts_lines content) as [|x l IH]; [reflexivity|].
  cbn [List.filter]. destruct (entry_matches host1 x) eqn:M1; cbn [negb].
  - destruct (entry_matches host2 x) eqn:M2; [|exact IH].
    exfalso. apply D. eapply entry_matches_exclusive; eauto.
  - cbn [List.filter]. rewrite IH. reflexivity.
Qed.

(** C5, as amended.  For a known-hosts file that is absent or a text file,
    and two different host labels without white space, a successful
    replace(file, host1, fp1) leaves the entries of host2, as the scan
    delivers them (lines of at most 1023 bytes, and the 1023-byte pieces of
    longer lines), unchanged and in their order; behind them comes only
    what the new entry itself reads as for host2.  A line of more than 1023
    bytes is not passed on as a whole: a piece of it that begins like an
    entry of host1 is dropped. *)
Theorem replace_keeps_other_hosts e fs file host1 host2 fp1 :
  store_is_text fs file ->
  no_space host1 = true -> no_space host2 = true -> host1 <> host2 ->
  u_ret (update e fs file host1 fp1) = 0%Z ->
  exists content,
    u_fs (update e fs file host1 fp1) !! file = Some content
    /\ entries_of host2 content
       = match fs !! file with
         | Some old => entries_of host2 old
         | None => []
         end ++ entries_of host2 (new_entry host1 fp1).
Proof.
  intros Txt S1 S2 D Ok.
  destruct (update_stored_fingerprint_success _ _ _ _ _ _ _ Ok) as [Fs _].
  rewrite Fs. eexists. split; [apply lookup_insert_eq|].
  unfold entries_of at 1. rewrite known_hosts_lines_rewritten by exact Txt.
  rewrite List.filter_app. f_equal.
  destruct (fs !! file) as [old|]; [|reflexivity].
  apply entries_of_other_lines; assumption.
Qed.


Lemma retrieve_stored_fingerprint_ext re fs1 fs2 file host n :
  fs1 !! file = fs2 !! file ->
  retrieve_stored_fingerprint re fs1 file host n
  = retrieve_stored_fingerprint re fs2 file host n.
Proof.
  intros E. unfold retrieve_stored_fingerprint, fopen_r. rewrite E. reflexivity.
Qed.

Lemma unlink_outfile_subseteq (e : update_env) (outfile : bytes) (fs : fsys) :
  unlink_outfile e outfile fs ⊆ fs.
Proof.
  destruct outfile; [reflexivity|]. cbn.
  destruct (unlink_error e); [reflexivity|apply delete_subseteq].
Qed.

Lemma unlink_outfile_other (e : update_env) (outfile : bytes) (fs : fsys)
  (file : bytes) :
  outfile <> file -> unlink_outfile e outfile fs !! file = fs !! file.
Proof.
  intros N. destruct outfile; [reflexivity|]. cbn.
  destruct (unlink_error e); [reflexivity|apply lookup_delete_ne, N].
Qed.

(** X19.  When update_stored_fingerprint returns -1, every descriptor is
    closed.  When, besides, unlink has not failed, the file system holds no
    file it did not hold before and no file with other contents: the
    temporary file is gone and nothing partial was written anywhere.  The
    known-hosts file itself is as before, and every lookup in it returns
    what it returned before, unless one of the two names the failure code
    may unlink before the temporary file has its name is the known-hosts
    file: what the still uninitialised buffer outfile holds when the path
    is too long, and the directory of the file when it cannot be made. *)
Theorem returned_failure_leaves_store e fs file host fp :
  u_ret (update e fs file host fp) = (-1)%Z ->
  u_open (update e fs file host fp) = closed
  /\ (unlink_error e = false -> u_fs (update e fs file host fp) ⊆ fs)
  /\ ((PATH_MAX < length file + length NEO4J_TEMP_FILE_SUFFIX + 1 ->
       outfile0 e <> file) ->
      (mkdir_p_error e = true -> neo4j_dirname file <> file) ->
      u_fs (update e fs file host fp) !! file = fs !! file
      /\ forall re h n,
           retrieve_stored_fingerprint re (u_fs (update e fs file host fp))
             file h n
           = retrieve_stored_fingerprint re fs file h n).
Proof.
  intros Bad.
  destruct (update_stored_fingerprint_failure _ _ _ _ _ _ _ _ Bad)
    as (_ & H & F); [discriminate|].
  split; [exact H|]. split.
  - intros U. destruct F as [->|[[_ ->]|[[_ ->]|[U' _]]]];
      [reflexivity|apply unlink_outfile_subseteq..|congruence].
  - intros G D.
    assert (u_fs (update e fs file host fp) !! file = fs !! file) as L.
    { destruct F as [->|[[P ->]|[[M ->]|(_ & _ & c & ->)]]]; [reflexivity|..].
      - apply unlink_outfile_other; auto.
      - apply unlink_outfile_other; auto.
      - apply lookup_insert_ne, temp_name_fresh. }
    split; [exact L|].
    intros re h n. apply retrieve_stored_fingerprint_ext, L.
Qed.

Variable TRUST : Z.
Variable ACCEPT_ONCE : Z.
Abbreviation check := (neo4j_check_known_hosts PATH_MAX neo4j_dirname TRUST ACCEPT_ONCE).

Lemma strcmp_eq_spec a b : strcmp_eq a b = true <-> a = b.
Proof.
  revert b. induction a as [|x a IH]; intros [|y b]; cbn;
    try (split; [discriminate|intros [=]]); [tauto|].
  rewrite andb_true_iff, Ascii.eqb_eq, IH. split; [intros [-> ->]|intros [= -> ->]]; auto.
Qed.

(** When the lookup returns 0 and the presented fingerprint, the call
    returns 0 at line 98 without entering the decision block. *)
Lemma lookup_equal_is_verified e fs hostname port fingerprint config file :
  hostname_ok hostname = true ->
  known_hosts_path e config = Some file ->
  retrieve_stored_fingerprint (lookup_env e) fs file (host_label hostname port)
    NEO4J_MAX_FINGERPRINT_LENGTH = (0%Z, Some fingerprint) ->
  check e fs hostname port fingerprint config
  = {| ret := 0; calls := []; fs_after := fs |}.
Proof.
  intros H P R. unfold neo4j_check_known_hosts, REQUIRE.
  rewrite H, P, R. cbn [orb Z.ltb Z.compare].
  rewrite (proj2 (strcmp_eq_spec fingerprint fingerprint) eq_refl).
  reflexivity.
Qed.

(** C8.  For a valid host name and no callback: when the lookup finds no
    entry (also because there is no file), or one whose fingerprint differs
    from the presented one, neo4j_check_known_hosts returns 1 and the file
    system is as before; a file that was absent stays absent. *)
Theorem no_callback_rejects e fs hostname port fingerprint config file :
  hostname_ok hostname = true ->
  known_hosts_path e config = Some file ->
  unverified_host_callback config = None ->
  (fst (retrieve_stored_fingerprint (lookup_env e) fs file
          (host_label hostname port) NEO4J_MAX_FINGERPRINT_LENGTH) = 1%Z
   \/ exists existing,
        retrieve_stored_fingerprint (lookup_env e) fs file
          (host_label hostname port) NEO4J_MAX_FINGERPRINT_LENGTH
        = (0%Z, Some existing) /\ existing <> fingerprint) ->
  check e fs hostname port fingerprint config
  = {| ret := 1; calls := []; fs_after := fs |}.
Proof.
  intros H P C R. unfold neo4j_check_known_hosts, REQUIRE. rewrite H, P.
  destruct R as [R|(existing & R & D)].
  - destruct (retrieve_stored_fingerprint _ _ _ _ _) as [r buf].
    cbn [fst] in R. subst r. cbn [orb Z.ltb Z.compare]. rewrite C. reflexivity.
  - rewrite R. cbn [orb Z.ltb Z.compare].
    destruct (strcmp_eq fingerprint existing) eqn:E.
    + apply strcmp_eq_spec in E. congruence.
    + cbn [negb]. rewrite C. reflexivity.
Qed.

(** C10.  For an empty host name and for one of 256 bytes or more
    neo4j_check_known_hosts returns -1 at once: no callback is called, and
    the result is the same for every file system and environment, which is
    returned untouched. *)
Theorem invalid_hostname_is_refused e fs hostname port fingerprint config :
  hostname = [] \/ 256 <= length hostname ->
  neo4j_check_known_hosts PATH_MAX neo4j_dirname TRUST ACCEPT_ONCE
    e fs hostname port fingerprint config
  = {| ret := -1; calls := []; fs_after := fs |}.
Proof.
  intros H. unfold neo4j_check_known_hosts, REQUIRE, hostname_ok.
  destruct H as [->|H]; [reflexivity|].
  apply Nat.ltb_ge in H. rewrite H. reflexivity.
Qed.

End StoreFacts.

(** * The claims at concrete inputs *)

Lemma replace_then_lookup_witness :
  retrieve_stored_fingerprint quiet_read
    (u_fs (replace (quiet_update (s2l "a1B2c3")) store_AABB known_certs
             db_example (s2l "CC:DD")))
    known_certs db_example 60
  = (0%Z, Some (take (60 - 1) (s2l "CC:DD")))
  /\ (length (s2l "CC:DD") < 60 -> take (60 - 1) (s2l "CC:DD") = s2l "CC:DD").
Proof.
  apply (replace_then_lookup 4096 parent_dir).
  - vm_compute. reflexivity.
  - reflexivity.
  - reflexivity.
  - reflexivity.
  - reflexivity.
  - reflexivity.
  - apply Nat.leb_le. vm_compute. reflexivity.
  - lia.
  - vm_compute. reflexivity.
  - vm_compute. discriminate.
Defined.

(** C2 fails as stated: a fingerprint of eleven bytes comes back from a
    buffer of nine bytes as its first eight. *)
Lemma replace_then_lookup_truncates :
  u_ret (replace (quiet_update (s2l "a1B2c3")) ∅ known_certs db_example
           (s2l "AA:BB:CC:DD")) = 0%Z
  /\ retrieve_stored_fingerprint quiet_read
       (u_fs (replace (quiet_update (s2l "a1B2c3")) ∅ known_certs db_example
                (s2l "AA:BB:CC:DD")))
       known_certs db_example 9
     = (0%Z, Some (s2l "AA:BB:CC"))
  /\ s2l "AA:BB:CC" <> s2l "AA:BB:CC:DD".
Proof. split; [|split]; [vm_compute; reflexivity ..|discriminate]. Qed.

Lemma replace_leaves_one_entry_witness :
  exists content,
    u_fs (replace (quiet_update (s2l "a1B2c3")) store_AABB known_certs
            db_example (s2l "CC:DD")) !! known_certs = Some content
    /\ entries_of db_example content = [new_entry db_example (s2l "CC:DD")].
Proof.
  apply (replace_leaves_one_entry 4096 parent_dir).
  - vm_compute. reflexivity.
  - reflexivity.
  - reflexivity.
  - reflexivity.
  - reflexivity.
  - apply Nat.leb_le. vm_compute. reflexivity.
  - vm_compute. reflexivity.
Defined.

(** C4 fails as stated: the last line of the file has no newline. *)
Lemma replace_after_unterminated_line :
  u_ret (replace (quiet_update (s2l "a1B2c3")) {[ known_certs := s2l "b:2 XX" ]}
           known_certs (s2l "a:1") (s2l "FF")) = 0%Z
  /\ u_fs (replace (quiet_update (s2l "a1B2c3")) {[ known_certs := s2l "b:2 XX" ]}
             known_certs (s2l "a:1") (s2l "FF")) !! known_certs
     = Some (s2l "b:2 XXa:1 FF" ++ [LF])
  /\ entries_of (s2l "a:1") (s2l "b:2 XXa:1 FF" ++ [LF]) = [].
Proof. repeat split; vm_compute; reflexivity. Qed.

Lemma replace_keeps_other_hosts_witness :
  exists content,
    u_fs (replace (quiet_update (s2l "a1B2c3")) store_AABB known_certs
            (s2l "other.example:7687") (s2l "CC:DD")) !! known_certs
    = Some content
    /\ entries_of db_example content
       = match store_AABB !! known_certs with
         | Some old => entries_of db_example old
         | None => []
         end ++ entries_of db_example
                  (new_entry (s2l "other.example:7687") (s2l "CC:DD")).
Proof.
  apply (replace_keeps_other_hosts 4096 parent_dir).
  - vm_compute. reflexivity.
  - reflexivity.
  - reflexivity.
  - discriminate.
  - vm_compute. reflexivity.
Defined.

(** C5 fails as stated: a line of 1030 bytes keyed by b:2 loses the piece
    behind its first 1023 bytes, which begins like an entry of a:1. *)
Lemma replace_cuts_long_line :
  entry_matches (s2l "b:2") (long_line "a:1 ZZ") = true
  /\ text_lines (long_line "a:1 ZZ") = [long_line "a:1 ZZ"]
  /\ u_ret (replace (quiet_update (s2l "a1B2c3"))
              {[ known_certs := long_line "a:1 ZZ" ]}
              known_certs (s2l "a:1") (s2l "FF")) = 0%Z
  /\ (text_lines <$>
        u_fs (replace (quiet_update (s2l "a1B2c3"))
                {[ known_certs := long_line "a:1 ZZ" ]}
                known_certs (s2l "a:1") (s2l "FF")) !! known_certs)
     = Some [long_line "a:1 FF"]
  /\ ~ In (long_line "a:1 ZZ") [long_line "a:1 FF"].
Proof.
  repeat split; try (vm_compute; reflexivity).
  intros [E|[]]. apply (f_equal (fun l => nth 1027 l NUL)) in E.
  vm_compute in E. discriminate.
Qed.

(** Environments in which one call fails. *)
Definition rename_fails : update_env :=
  {| in_env := quiet_read; outfile0 := []; mkdir_p_error := false;
     mkstemp_error := false; mkstemp_chars := s2l "a1B2c3";
     fdopen_error := false; write_error := None;
     fclose_in_error := false; fclose_out_error := false;
     rename_error := true; unlink_error := false |}.

Definition fclose_out_fails : update_env :=
  {| in_env := quiet_read; outfile0 := []; mkdir_p_error := false;
     mkstemp_error := false; mkstemp_chars := s2l "a1B2c3";
     fdopen_error := false; write_error := None;
     fclose_in_error := false; fclose_out_error := true;
     rename_error := false; unlink_error := false |}.

Definition fclose_in_fails : update_env :=
  {| in_env := quiet_read; outfile0 := []; mkdir_p_error := false;
     mkstemp_error := false; mkstemp_chars := s2l "a1B2c3";
     fdopen_error := false; write_error := None;
     fclose_in_error := true; fclose_out_error := false;
     rename_error := false; unlink_error := false |}.

(** A path of 4091 bytes: with the suffix it does not fit PATH_MAX. *)
Definition long_path : bytes := s2l "/" ++ repeat "a"%char 4090.

(** No call fails, and the buffer outfile happens to hold [name]. *)
Definition stack_holds (name : bytes) : update_env :=
  {| in_env := quiet_read; outfile0 := name; mkdir_p_error := false;
     mkstemp_error := false; mkstemp_chars := s2l "a1B2c3";
     fdopen_error := false; write_error := None;
     fclose_in_error := false; fclose_out_error := false;
     rename_error := false; unlink_error := false |}.

Lemma returned_failure_leaves_store_witness :
  let e := rename_fails in
  u_open (replace e store_AABB known_certs db_example (s2l "CC:DD")) = closed
  /\ (unlink_error e = false ->
      u_fs (replace e store_AABB known_certs db_example (s2l "CC:DD"))
        ⊆ store_AABB)
  /\ ((4096 < length known_certs + length NEO4J_TEMP_FILE_SUFFIX + 1 ->
       outfile0 e <> known_certs) ->
      (mkdir_p_error e = true -> parent_dir known_certs <> known_certs) ->
      u_fs (replace e store_AABB known_certs db_example (s2l "CC:DD"))
        !! known_certs = store_AABB !! known_certs
      /\ forall re h n,
           retrieve_stored_fingerprint re
             (u_fs (replace e store_AABB known_certs db_example (s2l "CC:DD")))
             known_certs h n
           = retrieve_stored_fingerprint re store_AABB known_certs h n).
Proof.
  intros e. apply (returned_failure_leaves_store 4096 parent_dir).
  vm_compute. reflexivity.
Defined.

(** C3 does not hold of the code.  When fclose(out_stream) fails (the disk
    is full when the buffer is flushed, say), the code goes to the label
    failure with out_stream not yet set to NULL, and the failure code hands
    the closed stream to fclose a second time: from there the behaviour of
    the call is undefined, it does not report -1, and the temporary file is
    still there.  The same happens with in_stream when fclose(in_stream)
    fails.  And when the path is too long for the temporary name, the
    failure code looks at the buffer outfile before anything was stored in
    it and unlinks the name it finds there: if that is the known-hosts
    file, the call returns -1 and the store is gone. *)
Theorem failed_fclose_is_closed_twice :
  replace fclose_out_fails store_AABB known_certs db_example (s2l "CC:DD")
  = {| u_ret := Undefined;
       u_fs := <[known_certs ++ s2l ".tmpa1B2c3" := []]> store_AABB;
       u_open := closed |}
  /\ replace fclose_in_fails store_AABB known_certs db_example (s2l "CC:DD")
     = {| u_ret := Undefined;
          u_fs := <[known_certs ++ s2l ".tmpa1B2c3" := []]> store_AABB;
          u_open := {| in_open := false; out_open := true |} |}
  /\ replace (stack_holds long_path)
       {[ long_path := db_example ++ s2l " AA:BB" ++ [LF] ]}
       long_path db_example (s2l "CC:DD")
     = {| u_ret := -1; u_fs := ∅; u_open := closed |}.
Proof. repeat split; vm_compute; reflexivity. Qed.

Lemma no_callback_rejects_witness :
  verify (quiet None) ∅ (s2l "db.example") 7687 (s2l "AA:BB") (config_of None)
  = {| ret := 1; calls := []; fs_after := ∅ |}.
Proof.
  apply (no_callback_rejects 4096 parent_dir 2 1) with (file := known_certs).
  - reflexivity.
  - reflexivity.
  - reflexivity.
  - left. vm_compute. reflexivity.
Defined.

Lemma invalid_hostname_is_refused_witness :
  verify (quiet None) store_AABB [] 7687 (s2l "AA:BB")
    (config_of (Some (fun _ _ _ => 2%Z)))
  = {| ret := -1; calls := []; fs_after := store_AABB |}.
Proof.
  apply (invalid_hostname_is_refused 4096 parent_dir 2 1). left. reflexivity.
Defined.

(** C1 does not hold of the code.  The known-hosts file holds the entry
    of the host but cannot be opened (fopen fails, errno is not ENOENT):
    the lookup returns -1, and neo4j_check_known_hosts goes on to compare
    the fingerprint with the uninitialised buffer, calls the callback with
    the reason UNRECOGNIZED and returns what the callback decides (here 0),
    and 1 when there is no callback; in neither case does it return -1. *)
Theorem lookup_error_is_not_reported :
  let e := {| dot_dir := None;
              lookup_env := {| open_error := true; read_error := None |};
              existing0 := []; trust_env := quiet_update (s2l "a1B2c3") |} in
  retrieve_stored_fingerprint (lookup_env e) store_AABB known_certs db_example
    NEO4J_MAX_FINGERPRINT_LENGTH = ((-1)%Z, None)
  /\ verify e store_AABB (s2l "db.example") 7687 (s2l "AA:BB")
       (config_of (Some (fun _ _ _ => 1%Z)))
     = {| ret := 0;
          calls := [(db_example, s2l "AA:BB", NEO4J_HOST_VERIFICATION_UNRECOGNIZED)];
          fs_after := store_AABB |}
  /\ verify e store_AABB (s2l "db.example") 7687 (s2l "AA:BB") (config_of None)
     = {| ret := 1; calls := []; fs_after := store_AABB |}.
Proof. repeat split; vm_compute; reflexivity. Qed.

(** The scenarios S2 and S4 of the specification. *)
Example trust_on_first_use :
  verify (quiet None) ∅ (s2l "db.example") 7687 (s2l "AA:BB")
    (config_of (Some (fun _ _ _ => 2%Z)))
  = {| ret := 0;
       calls := [(db_example, s2l "AA:BB", NEO4J_HOST_VERIFICATION_UNRECOGNIZED)];
       fs_after := store_AABB |}.
Proof. vm_compute. reflexivity. Qed.

Example mismatch_accepted_once_or_trusted :
  verify (quiet None) store_AABB (s2l "db.example") 7687 (s2l "CC:DD")
    (config_of (Some (fun _ _ _ => 1%Z)))
  = {| ret := 0;
       calls := [(db_example, s2l "CC:DD", NEO4J_HOST_VERIFICATION_MISMATCH)];
       fs_after := store_AABB |}
  /\ verify (quiet None) store_AABB (s2l "db.example") 7687 (s2l "CC:DD")
       (config_of (Some (fun _ _ _ => 2%Z)))
     = {| ret := 0;
          calls := [(db_example, s2l "CC:DD", NEO4J_HOST_VERIFICATION_MISMATCH)];
          fs_after := {[ known_certs := db_example ++ s2l " CC:DD" ++ [LF] ]} |}.
Proof. split; vm_compute; reflexivity. Qed.

(** * The record interface *)

(** C9.  field(i) of a record is the null value for every index i that is
    not below nfields, and the i-th value for every index below it. *)
Theorem field_in_and_out_of_range (r : ResultStream.neo4j_result_t) (i : nat) :
  (ResultStream.nfields r <= i ->
   ResultStream.field r i = ResultStream.neo4j_null)
  /\ (i < ResultStream.nfields r ->
      ResultStream.values r !! i = Some (ResultStream.field r i)).
Proof.
  unfold ResultStream.field, ResultStream.nfields. split; intros H.
  - apply Nat.ltb_ge in H. rewrite H. reflexivity.
  - pose proof H as L. apply Nat.ltb_lt in L. rewrite L.
    apply lookup_lt_is_Some in H as [v V]. rewrite V. f_equal.
    symmetry. apply nth_lookup_Some with (d := ResultStream.neo4j_null) in V.
    exact V.
Qed.

(** * Further facts about the lookup, the replace and the verifier *)

(** * More about the lookup *)
Section LookupFacts.
Abbreviation LINE := NEO4J_MAX_KNOWN_HOSTS_LINE_LENGTH.

(** What a lookup returns when it meets no I/O error. *)
Definition lookup_in (old : option bytes) (host : bytes) (n : nat)
  : Z * option bytes :=
  match old with
  | None => (1%Z, None)
  | Some content =>
      match List.find (entry_matches host) (known_hosts_lines content) with
      | Some line => (0%Z, Some (stored_fingerprint host line n))
      | None => (1%Z, None)
      end
  end.

Lemma retrieve_stored_fingerprint_quiet fs file host n :
  retrieve_stored_fingerprint quiet_read fs file host n
  = lookup_in (fs !! file) host n.
Proof.
  unfold retrieve_stored_fingerprint, fopen_r, lookup_in. cbn [open_error quiet_read].
  destruct (fs !! file) as [content|]; [|reflexivity].
  apply scan_known_hosts_find.
Qed.

Lemma retrieve_stored_fingerprint_cases re fs file host n :
  retrieve_stored_fingerprint re fs file host n = ((-1)%Z, None)
  \/ retrieve_stored_fingerprint re fs file host n
     = lookup_in (fs !! file) host n.
Proof.
  unfold retrieve_stored_fingerprint, fopen_r, lookup_in.
  destruct (open_error re); [left; reflexivity|].
  destruct (fs !! file) as [content|]; [|right; reflexivity].
  destruct (scan_known_hosts_fault host n content (read_error re)) as [E|E];
    [left; exact E|right].
  rewrite E. apply scan_known_hosts_find.
Qed.

(** A lookup that returns 0 has taken its fingerprint from a line of the
    file that is keyed by the host label. *)
Lemma retrieve_stored_fingerprint_found re fs file host n fp :
  retrieve_stored_fingerprint re fs file host n = (0%Z, Some fp) ->
  exists content line,
    fs !! file = Some content
    /\ In line (known_hosts_lines content)
    /\ entry_matches host line = true
    /\ fp = stored_fingerprint host line n.
Proof.
  destruct (retrieve_stored_fingerprint_cases re fs file host n) as [E|E];
    rewrite E; [discriminate|].
  unfold lookup_in. destruct (fs !! file) as [content|]; [|discriminate].
  destruct (List.find _ _) as [line|] eqn:F; [|discriminate].
  intros [= <-]. apply List.find_some in F as [I M].
  exists content, line. auto.
Qed.

(** X1.  A lookup that does not fail (does not return -1) returns 1, with
    the buffer untouched, when there is no file or no line keyed by the
    host label, and otherwise 0 with the fingerprint of the first such
    line: of two entries of one host the first wins. *)
Theorem lookup_returns_first_entry re fs file host n :
  fst (retrieve_stored_fingerprint re fs file host n) <> (-1)%Z ->
  retrieve_stored_fingerprint re fs file host n
  = match fs !! file with
    | None => (1%Z, None)
    | Some content =>
        match List.find (entry_matches host) (known_hosts_lines content) with
        | Some line => (0%Z, Some (stored_fingerprint host line n))
        | None => (1%Z, None)
        end
    end.
Proof.
  intros Ok.
  destruct (retrieve_stored_fingerprint_cases re fs file host n) as [E|E].
  - rewrite E in Ok. cbn in Ok. congruence.
  - exact E.
Qed.

(** X2.  A failing call can only make a lookup fail: whatever fails, the
    lookup returns -1 with the buffer untouched, or exactly what it returns
    when nothing fails; it never returns another fingerprint, and never a
    miss for an entry that is there. *)
Theorem lookup_error_only_fails re fs file host n :
  retrieve_stored_fingerprint re fs file host n = ((-1)%Z, None)
  \/ retrieve_stored_fingerprint re fs file host n
     = retrieve_stored_fingerprint quiet_read fs file host n.
Proof.
  rewrite retrieve_stored_fingerprint_quiet.
  apply retrieve_stored_fingerprint_cases.
Qed.

Lemma trim_length_le p l : trim_length p l <= l.
Proof.
  induction l as [|l IH]; cbn; [lia|].
  destruct (isspace (char_at p l)); lia.
Qed.

Lemma stored_fingerprint_length host line n :
  0 < n -> length (stored_fingerprint host line n) < n.
Proof.
  intros N. unfold stored_fingerprint. destruct n as [|n]; [lia|].
  rewrite length_take. lia.
Qed.

(** X3.  A lookup into a buffer of n > 0 bytes that returns 0 has stored
    fewer than n bytes of fingerprint: with its terminator the result fits
    the buffer. *)
Theorem lookup_fits_buffer re fs file host n fp :
  0 < n ->
  retrieve_stored_fingerprint re fs file host n = (0%Z, Some fp) ->
  length fp < n.
Proof.
  intros N R.
  apply retrieve_stored_fingerprint_found in R as (content & line & _ & _ & _ & ->).
  apply stored_fingerprint_length, N.
Qed.


(** *** The shape of what a lookup returns *)

(** A newline can only be the last byte. *)
Definition newline_last (x : bytes) : Prop :=
  exists b, no_byte LF b = true /\ (x = b \/ x = b ++ [LF]).

Lemma no_byte_take c l x : no_byte c x = true -> no_byte c (take l x) = true.
Proof.
  revert l. induction x as [|y x IH]; intros [|l]; cbn; auto.
  intros H. apply andb_prop in H as [H1 H2]. rewrite H1. cbn. apply IH, H2.
Qed.

Lemma no_byte_drop c l x : no_byte c x = true -> no_byte c (drop l x) = true.
Proof.
  revert l. induction x as [|y x IH]; intros [|l]; cbn; auto.
  intros H. apply andb_prop in H as [H1 H2]. apply IH, H2.
Qed.

Lemma newline_last_take l x : newline_last x -> newline_last (take l x).
Proof.
  intros (b & B & [->| ->]).
  - exists (take l b). split; [apply no_byte_take, B|left; reflexivity].
  - destruct (Nat.le_gt_cases l (length b)) as [L|L].
    + exists (take l b). split; [apply no_byte_take, B|left].
      apply take_app_le, L.
    + exists b. split; [exact B|right]. apply take_ge.
      rewrite length_app. cbn. lia.
Qed.

Lemma newline_last_drop l x : newline_last x -> newline_last (drop l x).
Proof.
  intros (b & B & [->| ->]).
  - exists (drop l b). split; [apply no_byte_drop, B|left; reflexivity].
  - destruct (Nat.le_gt_cases l (length b)) as [L|L].
    + exists (drop l b). split; [apply no_byte_drop, B|right].
      apply drop_app_le, L.
    + exists []. split; [reflexivity|left]. apply drop_ge.
      rewrite length_app. cbn. lia.
Qed.

Lemma c_str_prefix x : exists m, c_str x = take m x.
Proof.
  induction x as [|y x [m IH]]; [exists 0; reflexivity|].
  cbn. destruct (Ascii.eqb y NUL); [exists 0; reflexivity|].
  exists (S m). cbn. rewrite IH. reflexivity.
Qed.

Lemma c_str_has_no_nul x : no_byte NUL (c_str x) = true.
Proof.
  induction x as [|y x IH]; [reflexivity|].
  cbn. destruct (Ascii.eqb y NUL) eqn:E; [reflexivity|].
  cbn. rewrite E. exact IH.
Qed.

Lemma skip_space_suffix x : exists k, skip_space x = drop k x.
Proof.
  induction x as [|y x [k IH]]; [exists 0; reflexivity|].
  cbn. destruct (isspace y); [exists (S k); exact IH|exists 0; reflexivity].
Qed.

Lemma skip_space_head x :
  match skip_space x with [] => True | c :: _ => isspace c = false end.
Proof.
  induction x as [|y x IH]; [exact I|].
  cbn. destruct (isspace y) eqn:E; [exact IH|exact E].
Qed.

Lemma read_chunk_newline_last k s : newline_last (fst (read_chunk k s)).
Proof.
  destruct (read_chunk_spec k s) as [_ [[(b & E & B & _)|[B _]]|[_ B]]].
  - exists b. split; [exact B|right; exact E].
  - eexists. split; [exact B|left; reflexivity].
  - eexists. split; [exact B|left; reflexivity].
Qed.

Lemma fgets_chunks_In k s chunk :
  In chunk (fgets_chunks k s) -> exists s', chunk = fst (read_chunk (S k) s').
Proof.
  funelim (fgets_chunks k s); [intros []|].
  intros [<-|I]; [eexists; reflexivity|]. apply H, I.
Qed.

(** Every line the loops see is a C string with a newline at most at its
    end. *)
Lemma known_hosts_lines_shape content line :
  In line (known_hosts_lines content) ->
  no_byte NUL line = true /\ newline_last line.
Proof.
  unfold known_hosts_lines. rewrite in_map_iff. intros (chunk & <- & I).
  split; [apply c_str_has_no_nul|].
  apply fgets_chunks_In in I as [s' ->].
  destruct (c_str_prefix (fst (read_chunk (S (LINE - 2)) s'))) as [m ->].
  apply newline_last_take, read_chunk_newline_last.
Qed.

Lemma trim_length_stop p l :
  trim_length p l = 0 \/ isspace (char_at p (trim_length p l - 1)) = false.
Proof.
  induction l as [|l IH]; cbn; [left; reflexivity|].
  destruct (isspace (char_at p l)) eqn:E; [exact IH|right].
  cbn. rewrite Nat.sub_0_r. exact E.
Qed.

Lemma isspace_LF : isspace LF = true.
Proof. reflexivity. Qed.

Lemma no_byte_take_trimmed p :
  newline_last p ->
  no_byte LF (take (trim_length p (length p)) p) = true.
Proof.
  intros (b & B & [->| ->]); [apply no_byte_take, B|].
  rewrite length_app, Nat.add_1_r. cbn [trim_length].
  unfold char_at at 1. rewrite nth_middle_or, isspace_LF.
  rewrite take_app_le by apply trim_length_le. apply no_byte_take, B.
Qed.

Lemma take_take_min {A} (l m : nat) (x : list A) :
  take (Nat.min l m) x = take m (take l x).
Proof. rewrite take_take. f_equal. lia. Qed.

Lemma last_take_nth (p : bytes) l :
  0 < l -> l <= length p -> last (take l p) = Some (char_at p (l - 1)).
Proof.
  revert l. induction p as [|y p IH]; intros [|l] L1 L2; cbn in *; try lia.
  destruct l as [|l]; [destruct p; reflexivity|].
  specialize (IH (S l) ltac:(lia) ltac:(lia)).
  cbn in IH. rewrite Nat.sub_0_r in IH. unfold char_at in *.
  destruct p as [|z p]; [cbn in L2; lia|]. cbn in *. exact IH.
Qed.

Lemma stored_fingerprint_clean host line n :
  no_byte NUL line = true -> newline_last line ->
  no_byte NUL (stored_fingerprint host line n) = true
  /\ no_byte LF (stored_fingerprint host line n) = true
  /\ match stored_fingerprint host line n with
     | [] => True
     | c :: _ => isspace c = false
     end
  /\ (length (stored_fingerprint host line n) + 1 < n ->
      trimmed (stored_fingerprint host line n) = true).
Proof.
  intros N S. unfold stored_fingerprint.
  set (p := skip_space (drop (length host + 1) line)).
  assert (no_byte NUL p = true /\ newline_last p) as [Np Sp].
  { subst p. destruct (skip_space_suffix (drop (length host + 1) line)) as [k ->].
    split; [apply no_byte_drop, no_byte_drop, N|].
    apply newline_last_drop, newline_last_drop, S. }
  pose proof (skip_space_head (drop (length host + 1) line)) as Hd.
  fold p in Hd.
  set (lt := trim_length p (length p)).
  assert (lt <= length p) as Lt by apply trim_length_le.
  set (l := match n with 0 => lt | S n' => Nat.min lt n' end).
  assert (l <= lt) as Ll by (subst l; destruct n; lia).
  assert (take l p = take l (take lt p)) as E
    by (rewrite take_take; f_equal; lia).
  split; [apply no_byte_take, Np|].
  split; [rewrite E; apply no_byte_take, no_byte_take_trimmed, Sp|].
  split.
  - destruct p as [|c p']; [rewrite take_nil; exact I|].
    destruct l; [exact I|exact Hd].
  - rewrite length_take. intros Short.
    assert (l = lt) as -> by (subst l; destruct n; lia).
    unfold trimmed. apply andb_true_intro. split.
    + destruct p as [|c p']; [rewrite take_nil; reflexivity|].
      destruct lt; [reflexivity|]. cbn. rewrite Hd. reflexivity.
    + destruct (Nat.eq_dec lt 0) as [Z|Z]; [rewrite Z, take_0; reflexivity|].
      rewrite last_take_nth by lia.
      destruct (trim_length_stop p (length p)) as [T|T]; [fold lt in T; lia|].
      fold lt in T. rewrite T. reflexivity.
Qed.

(** X4.  The fingerprint a lookup returns holds no NUL and no newline and
    does not begin with white space; when it is shorter than n - 1 bytes,
    so that nothing was cut off, it does not end with white space
    either. *)
Theorem lookup_result_is_clean re fs file host n fp :
  retrieve_stored_fingerprint re fs file host n = (0%Z, Some fp) ->
  no_byte NUL fp = true
  /\ no_byte LF fp = true
  /\ match fp with [] => True | c :: _ => isspace c = false end
  /\ (length fp + 1 < n -> trimmed fp = true).
Proof.
  intros R.
  apply retrieve_stored_fingerprint_found in R as (content & line & _ & I & _ & ->).
  apply known_hosts_lines_shape in I as [N S].
  apply stored_fingerprint_clean; assumption.
Qed.


(** *** White space around a stored fingerprint *)

Definition all_space (s : bytes) : bool := forallb isspace s.

Lemma drop_key (host : bytes) (c : ascii) (rest : bytes) :
  drop (length host + 1) (host ++ c :: rest) = rest.
Proof. induction host as [|y host IH]; [reflexivity|exact IH]. Qed.

Lemma skip_space_all_space ws x :
  all_space ws = true -> skip_space (ws ++ x) = skip_space x.
Proof.
  induction ws as [|c ws IH]; [reflexivity|]. cbn.
  intros H. apply andb_prop in H as [H1 H2]. rewrite H1. apply IH, H2.
Qed.

Lemma skip_space_only ws : all_space ws = true -> skip_space ws = [].
Proof.
  intros H. rewrite <- (app_nil_r ws). rewrite skip_space_all_space by exact H.
  reflexivity.
Qed.

Lemma char_at_app_r (a b : bytes) i :
  char_at (a ++ b) (length a + i) = char_at b i.
Proof. unfold char_at. induction a as [|y a IH]; [reflexivity|exact IH]. Qed.

Lemma all_space_char_at ws i :
  all_space ws = true -> i < length ws -> isspace (char_at ws i) = true.
Proof.
  unfold char_at. revert i. induction ws as [|c ws IH]; intros i H L;
    [cbn in L; lia|].
  cbn in H. apply andb_prop in H as [H1 H2].
  destruct i as [|i]; [exact H1|]. cbn in *. apply IH; [exact H2|lia].
Qed.

Lemma trim_length_trailing c fp trail k :
  trimmed (c :: fp) = true -> all_space trail = true -> k <= length trail ->
  trim_length ((c :: fp) ++ trail) (length (c :: fp) + k) = length (c :: fp).
Proof.
  intros T A. induction k as [|k IH]; intros K.
  - rewrite Nat.add_0_r. change (length (c :: fp)) with (S (length fp)).
    cbn [trim_length]. unfold trimmed in T. apply andb_prop in T as [_ T].
    destruct (last (c :: fp)) as [d|] eqn:L;
      [|apply last_None in L; discriminate].
    pose proof (char_at_last (c :: fp) trail d L) as E.
    replace (length (c :: fp) - 1) with (length fp) in E by (cbn [length]; lia).
    apply negb_true_iff in T. rewrite E, T. reflexivity.
  - rewrite Nat.add_succ_r. cbn [trim_length].
    rewrite char_at_app_r, all_space_char_at by (assumption || lia).
    apply IH. lia.
Qed.

(** What a lookup extracts from a line that reads: host label, white
    space, fingerprint, white space. *)
Lemma stored_fingerprint_padded host sep fp trail n :
  sep <> [] -> all_space sep = true -> all_space trail = true ->
  trimmed fp = true -> 0 < n ->
  stored_fingerprint host (host ++ sep ++ fp ++ trail) n = take (n - 1) fp.
Proof.
  intros Ne S A T N. destruct sep as [|c sep]; [congruence|].
  cbn in S. apply andb_prop in S as [_ S].
  unfold stored_fingerprint. cbn [app]. rewrite drop_key.
  rewrite skip_space_all_space by exact S.
  destruct n as [|n]; [lia|]. rewrite Nat.sub_succ, Nat.sub_0_r.
  destruct fp as [|d fp].
  { cbn [app]. rewrite skip_space_only by exact A. destruct n; reflexivity. }
  assert (skip_space ((d :: fp) ++ trail) = (d :: fp) ++ trail) as ->.
  { unfold trimmed in T. apply andb_prop in T as [T _].
    apply negb_true_iff in T. cbn. rewrite T. reflexivity. }
  rewrite length_app, trim_length_trailing by (assumption || lia).
  destruct (Nat.le_ge_cases n (length (d :: fp))) as [L|L].
  - rewrite Nat.min_r by exact L. apply take_app_le. exact L.
  - rewrite Nat.min_l by exact L. rewrite take_app_length.
    symmetry. apply take_ge. exact L.
Qed.

(** X5.  White space around a stored fingerprint does not count: when the
    first line keyed by the host label reads host label, one or more bytes
    of white space (blank, tab, ...), fingerprint, and any white space (a
    carriage return before the newline, say), a lookup that does not fail
    (does not return -1) returns 0 and the first n - 1 bytes of the
    fingerprint. *)
Theorem lookup_trims_white_space re fs file host n content sep fp trail :
  fs !! file = Some content ->
  List.find (entry_matches host) (known_hosts_lines content)
    = Some (host ++ sep ++ fp ++ trail) ->
  sep <> [] -> all_space sep = true -> all_space trail = true ->
  trimmed fp = true -> 0 < n ->
  fst (retrieve_stored_fingerprint re fs file host n) <> (-1)%Z ->
  retrieve_stored_fingerprint re fs file host n = (0%Z, Some (take (n - 1) fp)).
Proof.
  intros F Fd Ne S A T N Ok.
  destruct (retrieve_stored_fingerprint_cases re fs file host n) as [E|E].
  - rewrite E in Ok. cbn in Ok. congruence.
  - rewrite E, F. unfold lookup_in. rewrite Fd.
    rewrite stored_fingerprint_padded by assumption. reflexivity.
Qed.

End LookupFacts.

(** * More about the replace *)
Section ReplaceFacts.
Abbreviation LINE := NEO4J_MAX_KNOWN_HOSTS_LINE_LENGTH.

Variable PATH_MAX : nat.
Variable neo4j_dirname : bytes -> bytes.
Abbreviation update := (update_stored_fingerprint PATH_MAX neo4j_dirname).

(** X6.  A successful replace leaves in the known-hosts file the lines that
    were not keyed by the host label, followed by the new entry (the entry
    alone when there was no file); every other path is as it was, so the
    temporary file is gone; and no descriptor is left open. *)
Theorem successful_replace_changes_one_file e fs file host fp :
  u_ret (update e fs file host fp) = 0%Z ->
  u_fs (update e fs file host fp) !! file
    = Some (rewritten (fs !! file) host fp)
  /\ (forall path, path <> file ->
        u_fs (update e fs file host fp) !! path = fs !! path)
  /\ u_open (update e fs file host fp) = closed.
Proof.
  intros Ok.
  destruct (update_stored_fingerprint_success _ _ _ _ _ _ _ Ok) as [-> ->].
  split; [apply lookup_insert_eq|]. split; [|reflexivity].
  intros path N. apply lookup_insert_ne. congruence.
Qed.

Lemma no_byte_concat_all c (l : list bytes) :
  Forall (fun x => no_byte c x = true) l -> no_byte c (concat l) = true.
Proof.
  induction 1 as [|x l X _ IH]; [reflexivity|].
  cbn [concat]. rewrite no_byte_app, X, IH. reflexivity.
Qed.

Lemma no_byte_single c x : x <> c -> no_byte c [x] = true.
Proof.
  intros N. unfold no_byte. cbn [forallb].
  destruct (Ascii.eqb_spec x c); [congruence|reflexivity].
Qed.

Lemma no_byte_new_entry c host fp :
  no_byte c host = true -> no_byte c fp = true ->
  c <> SP -> c <> LF -> no_byte c (new_entry host fp) = true.
Proof.
  intros H F S L. unfold new_entry.
  rewrite !no_byte_app, H, F, !no_byte_single by congruence. reflexivity.
Qed.

Lemma ends_with_newline_rewritten old host fp :
  ends_with_newline (rewritten old host fp) = true.
Proof.
  unfold rewritten, new_entry. rewrite !app_assoc.
  rewrite ends_with_newline_app by discriminate. reflexivity.
Qed.

Lemma no_nul_rewritten old host fp :
  no_byte NUL host = true -> no_byte NUL fp = true ->
  no_byte NUL (rewritten old host fp) = true.
Proof.
  intros H F. unfold rewritten. rewrite no_byte_app.
  rewrite no_byte_new_entry by (assumption || discriminate).
  rewrite andb_true_r. destruct old as [content|]; [|reflexivity].
  apply no_byte_concat_all. unfold other_lines, known_hosts_lines.
  apply Forall_filter_bool, List.Forall_forall. intros line I.
  apply in_map_iff in I as (chunk & <- & _). apply c_str_has_no_nul.
Qed.

(** X7.  Whatever the old file held, after a successful replace for a host
    label and a fingerprint that are C strings the known-hosts file is a
    text file: it holds no NUL byte and its last line ends in a newline. *)
Theorem replace_leaves_text_file e fs file host fp :
  no_byte NUL host = true -> no_byte NUL fp = true ->
  u_ret (update e fs file host fp) = 0%Z ->
  exists content,
    u_fs (update e fs file host fp) !! file = Some content
    /\ text_file content = true.
Proof.
  intros H F Ok.
  destruct (update_stored_fingerprint_success _ _ _ _ _ _ _ Ok) as [-> _].
  eexists. split; [apply lookup_insert_eq|].
  unfold text_file. rewrite no_nul_rewritten, ends_with_newline_rewritten
    by assumption. reflexivity.
Qed.

Lemma filter_negb_idem {A} (f : A -> bool) l :
  List.filter (fun x => negb (f x)) (List.filter (fun x => negb (f x)) l)
  = List.filter (fun x => negb (f x)) l.
Proof.
  induction l as [|x l IH]; [reflexivity|]. cbn.
  destruct (f x) eqn:E; cbn; [exact IH|]. rewrite E. cbn. f_equal. exact IH.
Qed.

(** The lines of other hosts in a rewritten file are those of the old. *)
Lemma other_lines_rewritten old host fp :
  match old with Some content => text_file content = true | None => True end ->
  no_byte NUL host = true -> no_byte NUL fp = true ->
  no_byte LF host = true -> no_byte LF fp = true ->
  length (new_entry host fp) <= LINE - 1 ->
  other_lines host (rewritten old host fp)
  = match old with Some content => other_lines host content | None => [] end.
Proof.
  intros Txt N1 N2 L1 L2 Len. unfold other_lines at 1.
  rewrite known_hosts_lines_rewritten by exact Txt.
  rewrite known_hosts_lines_new_entry by assumption.
  rewrite List.filter_app. cbn [List.filter].
  rewrite entry_matches_new_entry. cbn [negb]. rewrite app_nil_r.
  destruct old as [content|]; [|reflexivity].
  unfold other_lines. apply filter_negb_idem.
Qed.

(** X9.  A successful replace on a known-hosts file that is absent or a
    text file keeps every line that is not keyed by the host label,
    unchanged and in order, and adds none (host label and fingerprint
    without NUL and newline, the entry within the 1023 bytes of a line). *)
Theorem replace_keeps_other_lines e fs file host fp :
  store_is_text fs file ->
  no_byte NUL host = true -> no_byte NUL fp = true ->
  no_byte LF host = true -> no_byte LF fp = true ->
  length (new_entry host fp) <= LINE - 1 ->
  u_ret (update e fs file host fp) = 0%Z ->
  exists content,
    u_fs (update e fs file host fp) !! file = Some content
    /\ other_lines host content
       = match fs !! file with
         | Some old => other_lines host old
         | None => []
         end.
Proof.
  intros Txt N1 N2 L1 L2 Len Ok.
  destruct (update_stored_fingerprint_success _ _ _ _ _ _ _ Ok) as [-> _].
  eexists. split; [apply lookup_insert_eq|].
  apply other_lines_rewritten; assumption.
Qed.

(** X8.  The last replace wins.  On a known-hosts file that is absent or
    a text file, replace(host, fp1) followed by replace(host, fp2) leaves
    the file system that replace(host, fp2) alone leaves (fp1 without NUL
    and newline, its entry within the 1023 bytes of a line); with
    fp1 = fp2 a repeated replace changes nothing. *)
Theorem last_replace_wins e1 e2 e3 fs file host fp1 fp2 :
  store_is_text fs file ->
  no_byte NUL host = true -> no_byte NUL fp1 = true ->
  no_byte LF host = true -> no_byte LF fp1 = true ->
  length (new_entry host fp1) <= LINE - 1 ->
  u_ret (update e1 fs file host fp1) = 0%Z ->
  u_ret (update e2 (u_fs (update e1 fs file host fp1)) file host fp2) = 0%Z ->
  u_ret (update e3 fs file host fp2) = 0%Z ->
  u_fs (update e2 (u_fs (update e1 fs file host fp1)) file host fp2)
  = u_fs (update e3 fs file host fp2).
Proof.
  intros Txt N1 N2 L1 L2 Len Ok1 Ok2 Ok3.
  destruct (update_stored_fingerprint_success _ _ _ _ _ _ _ Ok2) as [-> _].
  destruct (update_stored_fingerprint_success _ _ _ _ _ _ _ Ok3) as [-> _].
  destruct (update_stored_fingerprint_success _ _ _ _ _ _ _ Ok1) as [-> _].
  rewrite lookup_insert_eq, insert_insert_eq. f_equal.
  unfold rewritten at 1. rewrite other_lines_rewritten by assumption.
  unfold rewritten. destruct (fs !! file); reflexivity.
Qed.

Lemma find_app_bool {A} (f : A -> bool) l1 l2 :
  List.find f (l1 ++ l2)
  = match List.find f l1 with Some x => Some x | None => List.find f l2 end.
Proof.
  induction l1 as [|x l1 IH]; [reflexivity|]. cbn.
  destruct (f x); [reflexivity|exact IH].
Qed.

Lemma find_other_hosts host1 host2 content :
  no_space host1 = true -> no_space host2 = true -> host1 <> host2 ->
  List.find (entry_matches host2) (other_lines host1 content)
  = List.find (entry_matches host2) (known_hosts_lines content).
Proof.
  intros S1 S2 D. unfold other_lines.
  induction (known_hosts_lines content) as [|x l IH]; [reflexivity|].
  cbn. destruct (entry_matches host1 x) eqn:M1; cbn.
  - destruct (entry_matches host2 x) eqn:M2; [|exact IH].
    exfalso. apply D. eapply entry_matches_exclusive; eauto.
  - destruct (entry_matches host2 x); [reflexivity|exact IH].
Qed.

Lemma no_space_no_newline s : no_space s = true -> no_byte LF s = true.
Proof.
  induction s as [|c s IH]; [reflexivity|].
  change (no_space (c :: s)) with (negb (isspace c) && no_space s).
  change (no_byte LF (c :: s)) with (negb (Ascii.eqb c LF) && no_byte LF s).
  intros H. apply andb_prop in H as [H1 H2]. rewrite (IH H2), andb_true_r.
  destruct (Ascii.eqb_spec c LF) as [->|]; [discriminate|reflexivity].
Qed.

(** X10.  A replace for one host does not change what a lookup returns
    for another: for a known-hosts file that is absent or a text file and
    two different host labels without white space, after a successful
    replace(file, host1, fp1) a lookup of host2 that meets no I/O error
    returns what it returned before, also when one label is a prefix of
    the other. *)
Theorem replace_keeps_other_lookups e fs file host1 host2 fp1 n :
  store_is_text fs file ->
  no_space host1 = true -> no_space host2 = true -> host1 <> host2 ->
  no_byte NUL host1 = true -> no_byte NUL fp1 = true -> no_byte LF fp1 = true ->
  length (new_entry host1 fp1) <= LINE - 1 ->
  u_ret (update e fs file host1 fp1) = 0%Z ->
  retrieve_stored_fingerprint quiet_read (u_fs (update e fs file host1 fp1))
    file host2 n
  = retrieve_stored_fingerprint quiet_read fs file host2 n.
Proof.
  intros Txt S1 S2 D N1 N2 L2 Len Ok.
  pose proof (no_space_no_newline _ S1) as L1.
  destruct (update_stored_fingerprint_success _ _ _ _ _ _ _ Ok) as [-> _].
  rewrite !retrieve_stored_fingerprint_quiet, lookup_insert_eq.
  unfold lookup_in. rewrite known_hosts_lines_rewritten by exact Txt.
  rewrite known_hosts_lines_new_entry by assumption.
  rewrite find_app_bool. cbn [List.find].
  assert (entry_matches host2 (new_entry host1 fp1) = false) as ->.
  { destruct (entry_matches host2 (new_entry host1 fp1)) eqn:M; [|reflexivity].
    exfalso. apply D. eapply entry_matches_exclusive; eauto.
    apply entry_matches_new_entry. }
  destruct (fs !! file) as [old|]; [|reflexivity].
  rewrite find_other_hosts by assumption.
  destruct (List.find _ _); reflexivity.
Qed.

End ReplaceFacts.

From Stdlib Require DecimalFacts DecimalPos DecimalZ Zpow_facts.

(** * The host label *)
Section HostLabel.

(** The bytes printf writes for %d: digits and the sign. *)
Definition is_int_char (c : ascii) : bool :=
  let k := nat_of_ascii c in Nat.eqb k 45 || (Nat.leb 48 k && Nat.leb k 57).

Lemma string_of_uint_chars d :
  forallb is_int_char (s2l (NilEmpty.string_of_uint d)) = true.
Proof. induction d; cbn; auto. Qed.

Lemma string_of_uint_length d :
  length (s2l (NilEmpty.string_of_uint d)) = Decimal.nb_digits d.
Proof. induction d; cbn; auto. Qed.

Lemma fmt_d_chars i : forallb is_int_char (fmt_d i) = true.
Proof.
  unfold fmt_d, NilZero.string_of_int, NilZero.string_of_uint.
  destruct (Z.to_int i) as [d|d]; destruct d; try reflexivity;
    try (apply (string_of_uint_chars (_ d)));
    change (s2l (String "-" ?x)) with ("-"%char :: s2l x); cbn [forallb].
  all: try (apply (string_of_uint_chars (_ d))).
Qed.

Lemma double_digits d :
  Decimal.nb_digits (Decimal.Little.double d) <= S (Decimal.nb_digits d)
  /\ Decimal.nb_digits (Decimal.Little.succ_double d) <= S (Decimal.nb_digits d).
Proof. induction d; cbn; lia. Qed.

Lemma to_little_uint_digits p :
  Decimal.nb_digits (Pos.to_little_uint p) <= Pos.size_nat p.
Proof.
  induction p as [p IH|p IH|]; cbn; [| |lia].
  - pose proof (proj2 (double_digits (Pos.to_little_uint p))). lia.
  - pose proof (proj1 (double_digits (Pos.to_little_uint p))). lia.
Qed.

Lemma to_uint_digits p k :
  (Z.pos p < 2 ^ Z.of_nat k)%Z -> Decimal.nb_digits (Pos.to_uint p) <= k.
Proof.
  intros H. apply Zpow_facts.Zpower2_Psize in H. unfold Pos.to_uint.
  rewrite DecimalFacts.nb_digits_rev. pose proof (to_little_uint_digits p). lia.
Qed.

(** printf writes at most 65 bytes for an int of up to 64 bits. *)
Lemma fmt_d_length i :
  (- 2 ^ 63 <= i < 2 ^ 63)%Z -> 0 < length (fmt_d i) <= 65.
Proof.
  intros R. unfold fmt_d, NilZero.string_of_int, NilZero.string_of_uint.
  destruct i as [|p|p]; [cbn; lia| |].
  - cbn [Z.to_int]. pose proof (DecimalPos.Unsigned.to_uint_nonnil p) as N.
    pose proof (to_uint_digits p 64 ltac:(cbn; lia)) as D.
    destruct (Pos.to_uint p) eqn:E; [congruence|..];
      rewrite string_of_uint_length; cbn in *; lia.
  - cbn [Z.to_int]. pose proof (DecimalPos.Unsigned.to_uint_nonnil p) as N.
    pose proof (to_uint_digits p 64 ltac:(cbn; lia)) as D.
    destruct (Pos.to_uint p) eqn:E; [congruence|..];
      change (s2l (String "-" ?x)) with ("-"%char :: s2l x);
      cbn [length]; rewrite string_of_uint_length; cbn in *; lia.
Qed.

Lemma s2l_inj a b : s2l a = s2l b -> a = b.
Proof.
  intros E. apply (f_equal string_of_list_ascii) in E. unfold s2l in E.
  rewrite !string_of_list_ascii_of_string in E. exact E.
Qed.

Lemma fmt_d_inj i j : fmt_d i = fmt_d j -> i = j.
Proof.
  unfold fmt_d. intros E. apply s2l_inj in E.
  assert (forall z, Z.to_int z <> Decimal.Pos Decimal.Nil
                    /\ Z.to_int z <> Decimal.Neg Decimal.Nil) as NN.
  { intros [|p|p]; cbn; split; try discriminate;
      intros [= H]; apply (DecimalPos.Unsigned.to_uint_nonnil p), H. }
  destruct (NN i) as [I1 I2]. destruct (NN j) as [J1 J2].
  pose proof (NilZero.isi _ I1 I2) as PI. pose proof (NilZero.isi _ J1 J2) as PJ.
  rewrite E in PI. rewrite PI in PJ. injection PJ as PJ.
  apply DecimalZ.to_int_inj, PJ.
Qed.

Lemma int_chars_exclude c s :
  forallb is_int_char s = true -> is_int_char c = false -> no_byte c s = true.
Proof.
  intros F C. induction s as [|x s IH]; [reflexivity|].
  cbn [forallb] in F. apply andb_prop in F as [F1 F2].
  change (no_byte c (x :: s)) with (negb (Ascii.eqb x c) && no_byte c s).
  rewrite (IH F2), andb_true_r.
  destruct (Ascii.eqb_spec x c) as [->|]; [congruence|reflexivity].
Qed.

Lemma fmt_d_excludes c i : is_int_char c = false -> no_byte c (fmt_d i) = true.
Proof. intros C. apply int_chars_exclude; [apply fmt_d_chars|exact C]. Qed.

Lemma hostname_ok_length hostname :
  hostname_ok hostname = true -> 0 < length hostname < 256.
Proof.
  unfold hostname_ok. rewrite andb_true_iff, Nat.ltb_lt. intros [L N].
  destruct hostname; [discriminate|cbn in *; lia].
Qed.

Lemma host_label_untruncated hostname port :
  hostname_ok hostname = true ->
  (- 2 ^ 63 <= port < 2 ^ 63)%Z ->
  host_label hostname port = hostname ++ s2l ":" ++ fmt_d port
  /\ 0 < length (hostname ++ s2l ":" ++ fmt_d port) < NEO4J_MAX_HOST_LENGTH.
Proof.
  intros H R. apply hostname_ok_length in H. pose proof (fmt_d_length port R) as D.
  assert (0 < length (hostname ++ s2l ":" ++ fmt_d port) < NEO4J_MAX_HOST_LENGTH)
    as L.
  { rewrite !length_app. change (length (s2l ":")) with 1.
    unfold NEO4J_MAX_HOST_LENGTH. lia. }
  split; [|exact L]. unfold host_label. apply take_ge.
  unfold NEO4J_MAX_HOST_LENGTH in *. lia.
Qed.

(** X16.  For a host name that passes the check of the arguments and a
    port that fits an int (of up to 64 bits), snprintf does not truncate
    the host label: it is the host name, a colon and the port in decimal,
    and its length n satisfies the assertion n > 0 && n < 512. *)
Theorem host_label_is_not_truncated hostname port :
  hostname_ok hostname = true ->
  (- 2 ^ 63 <= port < 2 ^ 63)%Z ->
  host_label hostname port = hostname ++ s2l ":" ++ fmt_d port
  /\ 0 < length (hostname ++ s2l ":" ++ fmt_d port) < NEO4J_MAX_HOST_LENGTH.
Proof. apply host_label_untruncated. Qed.

Lemma first_occurrence c (x1 x2 y1 y2 : bytes) :
  no_byte c x1 = true -> no_byte c x2 = true ->
  x1 ++ c :: y1 = x2 ++ c :: y2 -> x1 = x2 /\ y1 = y2.
Proof.
  revert x2. induction x1 as [|a x1 IH]; intros [|b x2] N1 N2 E; cbn in *.
  - injection E as ->. auto.
  - injection E as <- _. rewrite Ascii.eqb_refl in N2. discriminate.
  - injection E as -> _. rewrite Ascii.eqb_refl in N1. discriminate.
  - injection E as -> E. apply andb_prop in N1 as [_ N1].
    apply andb_prop in N2 as [_ N2].
    destruct (IH _ N1 N2 E) as [-> ->]. auto.
Qed.

Lemma no_byte_rev c s : no_byte c s = true -> no_byte c (rev s) = true.
Proof.
  unfold no_byte. rewrite !forallb_forall. intros H x I.
  apply H, in_rev, I.
Qed.

Lemma last_occurrence c (x1 x2 y1 y2 : bytes) :
  no_byte c y1 = true -> no_byte c y2 = true ->
  x1 ++ c :: y1 = x2 ++ c :: y2 -> x1 = x2 /\ y1 = y2.
Proof.
  intros N1 N2 E. apply (f_equal (@rev ascii)) in E.
  rewrite !rev_app_distr in E. cbn [rev] in E. rewrite <- !app_assoc in E.
  cbn [app] in E.
  apply first_occurrence in E as [E1 E2]; try (apply no_byte_rev; assumption).
  apply (f_equal (@rev ascii)) in E1, E2. rewrite !rev_involutive in E1, E2.
  auto.
Qed.

(** X17.  Different pairs of host name and port have different host
    labels, also when the host name holds colons: for valid host names and
    ports that fit an int, equal labels mean equal host names and equal
    ports. *)
Theorem host_label_is_injective hostname1 port1 hostname2 port2 :
  hostname_ok hostname1 = true -> hostname_ok hostname2 = true ->
  (- 2 ^ 63 <= port1 < 2 ^ 63)%Z -> (- 2 ^ 63 <= port2 < 2 ^ 63)%Z ->
  host_label hostname1 port1 = host_label hostname2 port2 ->
  hostname1 = hostname2 /\ port1 = port2.
Proof.
  intros H1 H2 R1 R2.
  destruct (host_label_untruncated _ _ H1 R1) as [-> _].
  destruct (host_label_untruncated _ _ H2 R2) as [-> _].
  intros E. apply last_occurrence in E as [E1 E2];
    try (apply fmt_d_excludes; reflexivity).
  split; [exact E1|apply fmt_d_inj, E2].
Qed.

End HostLabel.

(** * More about the verifier *)
Section VerifierFacts.
Abbreviation LINE := NEO4J_MAX_KNOWN_HOSTS_LINE_LENGTH.

Variable PATH_MAX : nat.
Variable neo4j_dirname : bytes -> bytes.
Variable TRUST : Z.
Variable ACCEPT_ONCE : Z.
Abbreviation update := (update_stored_fingerprint PATH_MAX neo4j_dirname).
Abbreviation check :=
  (neo4j_check_known_hosts PATH_MAX neo4j_dirname TRUST ACCEPT_ONCE).

Lemma retrieve_stored_fingerprint_range re fs file host n :
  (exists fp, retrieve_stored_fingerprint re fs file host n = (0%Z, Some fp))
  \/ retrieve_stored_fingerprint re fs file host n = (1%Z, None)
  \/ retrieve_stored_fingerprint re fs file host n = ((-1)%Z, None).
Proof.
  destruct (retrieve_stored_fingerprint_cases re fs file host n) as [E|E];
    rewrite E; [auto|].
  unfold lookup_in. destruct (fs !! file); [|auto].
  destruct (List.find _ _); eauto.
Qed.

(** X11.  neo4j_check_known_hosts returns 0, 1 or -1 and nothing else, and
    it calls the callback at most once.  The one case in which it returns
    nothing is that of a replace, started on TRUST, in which an fclose
    fails: there its behaviour is undefined. *)
Theorem verdict_is_one_of_three e fs hostname port fingerprint config :
  (ret (neo4j_check_known_hosts PATH_MAX neo4j_dirname TRUST ACCEPT_ONCE
          e fs hostname port fingerprint config) = 0%Z
   \/ ret (check e fs hostname port fingerprint config) = 1%Z
   \/ ret (check e fs hostname port fingerprint config) = (-1)%Z
   \/ (ret (check e fs hostname port fingerprint config) = Undefined
       /\ (fclose_in_error (trust_env e) = true
           \/ fclose_out_error (trust_env e) = true)))
  /\ length (calls (check e fs hostname port fingerprint config)) <= 1.
Proof.
  unfold neo4j_check_known_hosts, REQUIRE.
  destruct (hostname_ok hostname); [|cbn; auto].
  destruct (known_hosts_path e config) as [file|]; [|cbn; auto].
  destruct (retrieve_stored_fingerprint_range (lookup_env e) fs file
              (host_label hostname port) NEO4J_MAX_FINGERPRINT_LENGTH)
    as [[fp ->]|[-> | ->]].
  all: destruct (_ || _); [|cbn; auto].
  all: destruct (unverified_host_callback config) as [callback|]; [|cbn; auto].
  all: destruct (_ =? TRUST)%Z;
    [destruct (u_ret _) as [[|?|?]|] eqn:U; cbn; auto;
     apply update_stored_fingerprint_undefined in U; intuition auto|].
  all: destruct (_ =? ACCEPT_ONCE)%Z; cbn; auto.
Qed.

(** X12.  neo4j_check_known_hosts changes the file system only on TRUST:
    when the file system after the call differs from the one before, the
    callback was installed, was called with the host label and the
    presented fingerprint, and returned TRUST. *)
Theorem store_changes_only_on_trust e fs hostname port fingerprint config :
  fs_after (check e fs hostname port fingerprint config) <> fs ->
  exists callback reason,
    unverified_host_callback config = Some callback
    /\ calls (check e fs hostname port fingerprint config)
       = [(host_label hostname port, fingerprint, reason)]
    /\ callback (host_label hostname port) fingerprint reason = TRUST.
Proof.
  unfold neo4j_check_known_hosts, REQUIRE.
  destruct (hostname_ok hostname); [|cbn; congruence].
  destruct (known_hosts_path e config) as [file|]; [|cbn; congruence].
  destruct (retrieve_stored_fingerprint _ _ _ _ _) as [result buf].
  destruct (_ || _); [|cbn; congruence].
  destruct (unverified_host_callback config) as [callback|]; [|cbn; congruence].
  destruct (_ =? TRUST)%Z eqn:T.
  - apply Z.eqb_eq in T. intros _. exists callback. eexists.
    split; [reflexivity|]. split; [|exact T].
    destruct (u_ret _) as [[|?|?]|]; reflexivity.
  - destruct (_ =? ACCEPT_ONCE)%Z; cbn; congruence.
Qed.

(** X13.  The reason handed to the callback: MISMATCH only when the lookup
    returned 0 and a fingerprint other than the presented one;
    UNRECOGNIZED whenever the lookup did not return 0 (no file, no entry,
    or a failed lookup). *)
Theorem reason_given_to_callback e fs hostname port fingerprint config h f r :
  In (h, f, r) (calls (check e fs hostname port fingerprint config)) ->
  exists file,
    known_hosts_path e config = Some file
    /\ match r with
       | NEO4J_HOST_VERIFICATION_MISMATCH =>
           exists existing,
             retrieve_stored_fingerprint (lookup_env e) fs file
               (host_label hostname port) NEO4J_MAX_FINGERPRINT_LENGTH
             = (0%Z, Some existing)
             /\ existing <> fingerprint
       | NEO4J_HOST_VERIFICATION_UNRECOGNIZED =>
           fst (retrieve_stored_fingerprint (lookup_env e) fs file
                  (host_label hostname port) NEO4J_MAX_FINGERPRINT_LENGTH)
           <> 0%Z
       end.
Proof.
  unfold neo4j_check_known_hosts, REQUIRE.
  destruct (hostname_ok hostname); [|intros []].
  destruct (known_hosts_path e config) as [file|]; [|intros []].
  intros I. exists file. split; [reflexivity|]. revert I.
  destruct (retrieve_stored_fingerprint_range (lookup_env e) fs file
              (host_label hostname port) NEO4J_MAX_FINGERPRINT_LENGTH)
    as [[fp ->]|[-> | ->]].
  - cbn [orb Z.ltb Z.compare Z.eqb fst].
    destruct (strcmp_eq fingerprint fp) eqn:Ne; cbn [negb]; [intros []|].
    destruct (unverified_host_callback config) as [callback|]; [|intros []].
    destruct (_ =? TRUST)%Z;
      [destruct (u_ret _) as [[|?|?]|]|destruct (_ =? ACCEPT_ONCE)%Z].
    all: intros [[= <- <- <-]|[]].
    all: exists fp; split; [reflexivity|].
    all: intros ->;
      rewrite (proj2 (strcmp_eq_spec fingerprint fingerprint) eq_refl) in Ne;
      discriminate.
  - cbn [orb Z.ltb Z.compare Z.eqb fst].
    destruct (unverified_host_callback config) as [callback|]; [|intros []].
    destruct (_ =? TRUST)%Z;
      [destruct (u_ret _) as [[|?|?]|]|destruct (_ =? ACCEPT_ONCE)%Z].
    all: intros [[= <- <- <-]|[]]; discriminate.
  - cbn [orb Z.ltb Z.compare Z.eqb fst].
    destruct (strcmp_eq fingerprint (existing0 e)); cbn [negb]; [intros []|].
    destruct (unverified_host_callback config) as [callback|]; [|intros []].
    destruct (_ =? TRUST)%Z;
      [destruct (u_ret _) as [[|?|?]|]|destruct (_ =? ACCEPT_ONCE)%Z].
    all: intros [[= <- <- <-]|[]]; discriminate.
Qed.


(** *** Trust on first use *)

Lemma host_label_clean c hostname port :
  no_byte c hostname = true -> is_int_char c = false -> c <> ":"%char ->
  no_byte c (host_label hostname port) = true.
Proof.
  intros H C N. unfold host_label. apply no_byte_take.
  rewrite !no_byte_app, H, fmt_d_excludes by exact C.
  rewrite andb_true_r. cbn [andb]. unfold s2l. cbn [list_ascii_of_string].
  apply no_byte_single. congruence.
Qed.

Lemma host_label_length hostname port :
  length (host_label hostname port) <= NEO4J_MAX_HOST_LENGTH - 1.
Proof. unfold host_label. rewrite length_take. lia. Qed.

(** What a call that ended in a successful TRUST has left. *)
Lemma trusted_outcome e fs hostname port fingerprint config callback file h f r :
  unverified_host_callback config = Some callback ->
  known_hosts_path e config = Some file ->
  In (h, f, r) (calls (check e fs hostname port fingerprint config)) ->
  callback h f r = TRUST ->
  ret (check e fs hostname port fingerprint config) = 0%Z ->
  fs_after (check e fs hostname port fingerprint config)
  = <[file := rewritten (fs !! file) (host_label hostname port) fingerprint]> fs.
Proof.
  intros C P. unfold neo4j_check_known_hosts, REQUIRE. rewrite P, C.
  destruct (hostname_ok hostname); [|intros []].
  destruct (retrieve_stored_fingerprint _ _ _ _ _) as [result buf].
  destruct (_ || _); [|intros []].
  destruct (_ =? TRUST)%Z eqn:T.
  - destruct (u_ret _) as [[|?|?]|] eqn:U; try (intros _ _; discriminate).
    intros _ _ _. cbn [fs_after].
    apply update_stored_fingerprint_success, U.
  - apply Z.eqb_neq in T.
    destruct (_ =? ACCEPT_ONCE)%Z; intros [[= <- <- <-]|[]]; congruence.
Qed.

(** The lookup of a fingerprint that fits the buffer of the verifier, in
    the file a replace has written. *)
Lemma lookup_in_rewritten old host fp :
  match old with Some content => text_file content = true | None => True end ->
  no_byte NUL host = true -> no_byte NUL fp = true ->
  no_byte LF host = true -> no_byte LF fp = true ->
  trimmed fp = true ->
  length host <= NEO4J_MAX_HOST_LENGTH - 1 ->
  length fp < NEO4J_MAX_FINGERPRINT_LENGTH ->
  lookup_in (Some (rewritten old host fp)) host NEO4J_MAX_FINGERPRINT_LENGTH
  = (0%Z, Some fp).
Proof.
  intros Txt N1 N2 L1 L2 Tr Lh Lf. unfold lookup_in.
  assert (length (new_entry host fp) <= LINE - 1) as Len.
  { unfold new_entry. rewrite !length_app. cbn [length].
    unfold NEO4J_MAX_HOST_LENGTH, NEO4J_MAX_FINGERPRINT_LENGTH in *.
    change (LINE - 1) with (S (LINE - 2)). change (LINE - 2) with 1022. lia. }
  rewrite known_hosts_lines_rewritten by exact Txt.
  rewrite known_hosts_lines_new_entry by assumption.
  assert (List.find (entry_matches host)
            (match old with
             | Some content => other_lines host content
             | None => []
             end ++ [new_entry host fp]) = Some (new_entry host fp)) as ->.
  { destruct old as [content|].
    - rewrite find_other_lines. cbn [List.find].
      rewrite entry_matches_new_entry. reflexivity.
    - cbn [app List.find]. rewrite entry_matches_new_entry. reflexivity. }
  rewrite stored_fingerprint_new_entry
    by (assumption || (unfold NEO4J_MAX_FINGERPRINT_LENGTH; lia)).
  rewrite take_ge by (unfold NEO4J_MAX_FINGERPRINT_LENGTH in *; lia).
  reflexivity.
Qed.

(** X14.  Trust on first use pins the fingerprint.  Let a call for a valid
    host name and a fingerprint of fewer than 60 bytes (both without NUL
    and newline, the fingerprint not beginning or ending with white space)
    on a known-hosts file that is absent or a text file end in TRUST and
    return 0.  Then the next call with the same host, port, fingerprint
    and known-hosts file, whose lookup meets no I/O error, returns 0
    without calling the callback and without changing the file system. *)
Theorem trusted_fingerprint_is_verified_next_time
  e e' fs hostname port fingerprint config config' callback file h f r :
  hostname_ok hostname = true ->
  no_byte NUL hostname = true -> no_byte LF hostname = true ->
  no_byte NUL fingerprint = true -> no_byte LF fingerprint = true ->
  trimmed fingerprint = true ->
  length fingerprint < NEO4J_MAX_FINGERPRINT_LENGTH ->
  store_is_text fs file ->
  known_hosts_path e config = Some file ->
  unverified_host_callback config = Some callback ->
  In (h, f, r) (calls (check e fs hostname port fingerprint config)) ->
  callback h f r = TRUST ->
  ret (check e fs hostname port fingerprint config) = 0%Z ->
  known_hosts_path e' config' = Some file ->
  lookup_env e' = quiet_read ->
  check e' (fs_after (check e fs hostname port fingerprint config))
    hostname port fingerprint config'
  = {| ret := 0; calls := [];
       fs_after := fs_after (check e fs hostname port fingerprint config) |}.
Proof.
  intros H N1 L1 N2 L2 Tr Lf Txt P C I T R P' Q.
  rewrite (trusted_outcome _ _ _ _ _ _ _ _ _ _ _ C P I T R).
  unfold neo4j_check_known_hosts at 1, REQUIRE. rewrite H, P', Q.
  rewrite retrieve_stored_fingerprint_quiet, lookup_insert_eq.
  rewrite lookup_in_rewritten; try assumption.
  - cbn [orb Z.ltb Z.compare].
    rewrite (proj2 (strcmp_eq_spec fingerprint fingerprint) eq_refl).
    reflexivity.
  - apply host_label_clean; [assumption|reflexivity|discriminate].
  - apply host_label_clean; [assumption|reflexivity|discriminate].
  - apply host_label_length.
Qed.

(** X15.  After the same first call, a next call that presents another
    fingerprint is a mismatch: with no callback it returns 1 and changes
    nothing, and an installed callback is called once, with the reason
    MISMATCH. *)
Theorem other_fingerprint_is_a_mismatch_next_time
  e e' fs hostname port fingerprint fingerprint' config config' callback file
  h f r :
  hostname_ok hostname = true ->
  no_byte NUL hostname = true -> no_byte LF hostname = true ->
  no_byte NUL fingerprint = true -> no_byte LF fingerprint = true ->
  trimmed fingerprint = true ->
  length fingerprint < NEO4J_MAX_FINGERPRINT_LENGTH ->
  store_is_text fs file ->
  known_hosts_path e config = Some file ->
  unverified_host_callback config = Some callback ->
  In (h, f, r) (calls (check e fs hostname port fingerprint config)) ->
  callback h f r = TRUST ->
  ret (check e fs hostname port fingerprint config) = 0%Z ->
  known_hosts_path e' config' = Some file ->
  lookup_env e' = quiet_read ->
  fingerprint' <> fingerprint ->
  match unverified_host_callback config' with
  | None =>
      check e' (fs_after (check e fs hostname port fingerprint config))
        hostname port fingerprint' config'
      = {| ret := 1; calls := [];
           fs_after := fs_after (check e fs hostname port fingerprint config) |}
  | Some _ =>
      calls (check e' (fs_after (check e fs hostname port fingerprint config))
               hostname port fingerprint' config')
      = [(host_label hostname port, fingerprint',
          NEO4J_HOST_VERIFICATION_MISMATCH)]
  end.
Proof.
  intros H N1 L1 N2 L2 Tr Lf Txt P C I T R P' Q D.
  rewrite (trusted_outcome _ _ _ _ _ _ _ _ _ _ _ C P I T R).
  unfold neo4j_check_known_hosts at 1 2, REQUIRE. rewrite H, P', Q.
  rewrite retrieve_stored_fingerprint_quiet, lookup_insert_eq.
  rewrite lookup_in_rewritten; try assumption.
  - cbn [orb Z.ltb Z.compare Z.eqb].
    destruct (strcmp_eq fingerprint' fingerprint) eqn:E;
      [apply strcmp_eq_spec in E; congruence|]. cbn [negb].
    destruct (unverified_host_callback config') as [callback'|]; [|reflexivity].
    destruct (_ =? TRUST)%Z;
      [destruct (u_ret _) as [[|?|?]|]|destruct (_ =? ACCEPT_ONCE)%Z];
      reflexivity.
  - apply host_label_clean; [assumption|reflexivity|discriminate].
  - apply host_label_clean; [assumption|reflexivity|discriminate].
  - apply host_label_length.
Qed.

End VerifierFacts.

Section ReplaceSucceeds.
Abbreviation LINE := NEO4J_MAX_KNOWN_HOSTS_LINE_LENGTH.

Variable PATH_MAX : nat.
Variable neo4j_dirname : bytes -> bytes.
Abbreviation update := (update_stored_fingerprint PATH_MAX neo4j_dirname).

(** Without read and write errors the copy loop reaches the end of the
    file. *)
Lemma copy_other_hosts_quiet host s w :
  copy_other_hosts host {| unread := s; read_fault := None |}
    {| written := w; write_fault := None |}
  = CopyDone {| written := w ++ concat (other_lines host s);
                write_fault := None |}.
Proof.
  remember (length s) as m eqn:M. revert s w M.
  induction m as [m IH] using lt_wf_ind. intros s w ->.
  rewrite copy_other_hosts_unfold. destruct s as [|c s].
  { cbn. rewrite app_nil_r. reflexivity. }
  rewrite fgets_line by discriminate.
  unfold other_lines. rewrite known_hosts_lines_cons. cbn [List.filter fmap option_fmap option_map].
  destruct (entry_matches host _); cbn [negb].
  - eapply IH; [|reflexivity]. apply read_chunk_shorter.
  - unfold fputs. cbn [write_fault written fmap option_fmap option_map].
    erewrite IH; [|apply read_chunk_shorter|reflexivity].
    cbn [concat]. rewrite app_assoc. reflexivity.
Qed.

(** X18.  When no call fails, the temporary name fits PATH_MAX and is not
    taken, update_stored_fingerprint succeeds: it returns 0, with or
    without an old file. *)
Theorem replace_succeeds_when_nothing_fails chars fs file host fp :
  length file + length NEO4J_TEMP_FILE_SUFFIX + 1 <= PATH_MAX ->
  fs !! (file ++ s2l ".tmp" ++ chars) = None ->
  u_ret (update (quiet_update chars) fs file host fp) = 0%Z.
Proof.
  intros P T. unfold update_stored_fingerprint, fopen_r, mkstemp.
  rewrite temp_name_template. cbn [quiet_update in_env quiet_read open_error
    read_error mkdir_p_error mkstemp_error mkstemp_chars fdopen_error
    write_error fclose_in_error].
  apply Nat.ltb_ge in P. rewrite T.
  destruct (fs !! file) as [content|]; rewrite P.
  - rewrite copy_other_hosts_quiet. reflexivity.
  - reflexivity.
Qed.

End ReplaceSucceeds.


(** * What the verifier decides *)
Section Verdicts.
Abbreviation LINE := NEO4J_MAX_KNOWN_HOSTS_LINE_LENGTH.

Variable PATH_MAX : nat.
Variable neo4j_dirname : bytes -> bytes.
Variable TRUST : Z.
Variable ACCEPT_ONCE : Z.
Abbreviation update := (update_stored_fingerprint PATH_MAX neo4j_dirname).
Abbreviation check :=
  (neo4j_check_known_hosts PATH_MAX neo4j_dirname TRUST ACCEPT_ONCE).

(** C6, as amended.  For a valid host name, let the first line of the
    known-hosts file that is keyed by the host label read: host label, one
    or more bytes of white space, the presented fingerprint, and white
    space up to the end of the line.  If the fingerprint has fewer than 60
    bytes and neither begins nor ends with white space, and the lookup
    meets no I/O error, neo4j_check_known_hosts returns 0, the callback is
    not called and the file system is untouched. *)
Theorem known_fingerprint_is_verified
  e fs hostname port fingerprint config file content sep trail :
  hostname_ok hostname = true ->
  known_hosts_path e config = Some file ->
  fs !! file = Some content ->
  List.find (entry_matches (host_label hostname port))
    (known_hosts_lines content)
    = Some (host_label hostname port ++ sep ++ fingerprint ++ trail) ->
  sep <> [] -> all_space sep = true -> all_space trail = true ->
  trimmed fingerprint = true ->
  length fingerprint < NEO4J_MAX_FINGERPRINT_LENGTH ->
  fst (retrieve_stored_fingerprint (lookup_env e) fs file
         (host_label hostname port) NEO4J_MAX_FINGERPRINT_LENGTH) <> (-1)%Z ->
  check e fs hostname port fingerprint config
  = {| ret := 0; calls := []; fs_after := fs |}.
Proof.
  intros H P F Fd Ne S A T L Ok.
  apply lookup_equal_is_verified with (file := file); [exact H|exact P|].
  destruct (retrieve_stored_fingerprint_cases (lookup_env e) fs file
              (host_label hostname port) NEO4J_MAX_FINGERPRINT_LENGTH) as [E|E].
  - rewrite E in Ok. cbn in Ok. congruence.
  - rewrite E, F. unfold lookup_in. rewrite Fd.
    unfold NEO4J_MAX_FINGERPRINT_LENGTH in *.
    rewrite stored_fingerprint_padded by (assumption || lia).
    rewrite take_ge by lia. reflexivity.
Qed.





End Verdicts.

(** * The further facts at concrete inputs *)

(** Two entries of one host, and an entry padded with a tab, blanks and a
    carriage return. *)
Definition store_two_entries : fsys :=
  {[ known_certs := db_example ++ s2l " AA:BB" ++ [LF]
                    ++ db_example ++ s2l " CC:DD" ++ [LF] ]}.

Definition TAB : ascii := "009"%char.
Definition CR : ascii := "013"%char.

Definition padded_entry : bytes :=
  db_example ++ [TAB; SP] ++ s2l "AA:BB" ++ [SP; CR; LF].

Lemma lookup_returns_first_entry_witness :
  retrieve_stored_fingerprint quiet_read store_two_entries known_certs
    db_example 60
  = match store_two_entries !! known_certs with
    | None => (1%Z, None)
    | Some content =>
        match List.find (entry_matches db_example) (known_hosts_lines content) with
        | Some line => (0%Z, Some (stored_fingerprint db_example line 60))
        | None => (1%Z, None)
        end
    end.
Proof.
  apply (lookup_returns_first_entry quiet_read store_two_entries known_certs
           db_example 60).
  vm_compute. discriminate.
Defined.

Lemma lookup_fits_buffer_witness : length (s2l "AA") < 3.
Proof.
  apply (lookup_fits_buffer quiet_read store_AABB known_certs db_example 3
           (s2l "AA")).
  - lia.
  - vm_compute. reflexivity.
Defined.

Lemma lookup_result_is_clean_witness :
  no_byte NUL (s2l "AA:BB") = true
  /\ no_byte LF (s2l "AA:BB") = true
  /\ match s2l "AA:BB" with [] => True | c :: _ => isspace c = false end
  /\ (length (s2l "AA:BB") + 1 < 60 -> trimmed (s2l "AA:BB") = true).
Proof.
  apply (lookup_result_is_clean quiet_read {[ known_certs := padded_entry ]}
           known_certs db_example 60 (s2l "AA:BB")).
  vm_compute. reflexivity.
Defined.

Lemma lookup_trims_white_space_witness :
  retrieve_stored_fingerprint quiet_read {[ known_certs := padded_entry ]}
    known_certs db_example 60
  = (0%Z, Some (take (60 - 1) (s2l "AA:BB"))).
Proof.
  apply (lookup_trims_white_space quiet_read {[ known_certs := padded_entry ]}
           known_certs db_example 60 padded_entry [TAB; SP] (s2l "AA:BB")
           [SP; CR; LF]).
  - vm_compute. reflexivity.
  - vm_compute. reflexivity.
  - discriminate.
  - reflexivity.
  - reflexivity.
  - reflexivity.
  - lia.
  - vm_compute. discriminate.
Defined.

Lemma successful_replace_changes_one_file_witness :
  u_fs (replace (quiet_update (s2l "a1B2c3")) store_AABB known_certs
          db_example (s2l "CC:DD")) !! known_certs
    = Some (rewritten (store_AABB !! known_certs) db_example (s2l "CC:DD"))
  /\ (forall path, path <> known_certs ->
        u_fs (replace (quiet_update (s2l "a1B2c3")) store_AABB known_certs
                db_example (s2l "CC:DD")) !! path = store_AABB !! path)
  /\ u_open (replace (quiet_update (s2l "a1B2c3")) store_AABB known_certs
               db_example (s2l "CC:DD")) = closed.
Proof.
  apply (successful_replace_changes_one_file 4096 parent_dir).
  vm_compute. reflexivity.
Defined.

Lemma replace_leaves_text_file_witness :
  exists content,
    u_fs (replace (quiet_update (s2l "a1B2c3"))
            {[ known_certs := s2l "b:2 XX" ]} known_certs (s2l "a:1")
            (s2l "FF")) !! known_certs = Some content
    /\ text_file content = true.
Proof.
  apply (replace_leaves_text_file 4096 parent_dir).
  - reflexivity.
  - reflexivity.
  - vm_compute. reflexivity.
Defined.

Lemma last_replace_wins_witness :
  u_fs (replace (quiet_update (s2l "a1B2c3"))
          (u_fs (replace (quiet_update (s2l "a1B2c3")) store_AABB known_certs
                   db_example (s2l "CC:DD")))
          known_certs db_example (s2l "EE:FF"))
  = u_fs (replace (quiet_update (s2l "a1B2c3")) store_AABB known_certs
            db_example (s2l "EE:FF")).
Proof.
  apply (last_replace_wins 4096 parent_dir).
  - vm_compute. reflexivity.
  - reflexivity.
  - reflexivity.
  - reflexivity.
  - reflexivity.
  - apply Nat.leb_le. vm_compute. reflexivity.
  - vm_compute. reflexivity.
  - vm_compute. reflexivity.
  - vm_compute. reflexivity.
Defined.

Lemma replace_keeps_other_lines_witness :
  exists content,
    u_fs (replace (quiet_update (s2l "a1B2c3")) store_AABB known_certs
            (s2l "other.example:7687") (s2l "CC:DD")) !! known_certs
    = Some content
    /\ other_lines (s2l "other.example:7687") content
       = match store_AABB !! known_certs with
         | Some old => other_lines (s2l "other.example:7687") old
         | None => []
         end.
Proof.
  apply (replace_keeps_other_lines 4096 parent_dir).
  - vm_compute. reflexivity.
  - reflexivity.
  - reflexivity.
  - reflexivity.
  - reflexivity.
  - apply Nat.leb_le. vm_compute. reflexivity.
  - vm_compute. reflexivity.
Defined.

Lemma replace_keeps_other_lookups_witness :
  retrieve_stored_fingerprint quiet_read
    (u_fs (replace (quiet_update (s2l "a1B2c3")) store_AABB known_certs
             (s2l "db.example:76") (s2l "CC:DD")))
    known_certs db_example 60
  = retrieve_stored_fingerprint quiet_read store_AABB known_certs db_example 60.
Proof.
  apply (replace_keeps_other_lookups 4096 parent_dir).
  - vm_compute. reflexivity.
  - reflexivity.
  - reflexivity.
  - discriminate.
  - reflexivity.
  - reflexivity.
  - reflexivity.
  - apply Nat.leb_le. vm_compute. reflexivity.
  - vm_compute. reflexivity.
Defined.

Lemma store_changes_only_on_trust_witness :
  exists callback reason,
    unverified_host_callback (config_of (Some (fun _ _ _ => 2%Z)))
    = Some callback
    /\ calls (verify (quiet None) ∅ (s2l "db.example") 7687 (s2l "AA:BB")
                (config_of (Some (fun _ _ _ => 2%Z))))
       = [(host_label (s2l "db.example") 7687, s2l "AA:BB", reason)]
    /\ callback (host_label (s2l "db.example") 7687) (s2l "AA:BB") reason
       = 2%Z.
Proof.
  apply (store_changes_only_on_trust 4096 parent_dir 2 1).
  intros E. apply (f_equal (fun m : fsys => m !! known_certs)) in E.
  vm_compute in E. discriminate.
Defined.

Lemma reason_given_to_callback_witness :
  exists file,
    known_hosts_path (quiet None) (config_of (Some (fun _ _ _ => 0%Z)))
    = Some file
    /\ exists existing,
         retrieve_stored_fingerprint (lookup_env (quiet None)) store_AABB file
           (host_label (s2l "db.example") 7687) NEO4J_MAX_FINGERPRINT_LENGTH
         = (0%Z, Some existing)
         /\ existing <> s2l "CC:DD".
Proof.
  apply (reason_given_to_callback 4096 parent_dir 2 1 (quiet None) store_AABB
           (s2l "db.example") 7687 (s2l "CC:DD")
           (config_of (Some (fun _ _ _ => 0%Z)))
           db_example (s2l "CC:DD") NEO4J_HOST_VERIFICATION_MISMATCH).
  vm_compute. left. reflexivity.
Defined.

Lemma trusted_fingerprint_is_verified_next_time_witness :
  verify (quiet None)
    (fs_after (verify (quiet None) ∅ (s2l "db.example") 7687 (s2l "AA:BB")
                 (config_of (Some (fun _ _ _ => 2%Z)))))
    (s2l "db.example") 7687 (s2l "AA:BB") (config_of None)
  = {| ret := 0; calls := [];
       fs_after :=
         fs_after (verify (quiet None) ∅ (s2l "db.example") 7687 (s2l "AA:BB")
                     (config_of (Some (fun _ _ _ => 2%Z)))) |}.
Proof.
  apply (trusted_fingerprint_is_verified_next_time 4096 parent_dir 2 1
           (quiet None) (quiet None) ∅ (s2l "db.example") 7687 (s2l "AA:BB")
           (config_of (Some (fun _ _ _ => 2%Z))) (config_of None)
           (fun _ _ _ => 2%Z) known_certs
           db_example (s2l "AA:BB") NEO4J_HOST_VERIFICATION_UNRECOGNIZED).
  - reflexivity.
  - reflexivity.
  - reflexivity.
  - reflexivity.
  - reflexivity.
  - reflexivity.
  - vm_compute. lia.
  - vm_compute. exact I.
  - reflexivity.
  - reflexivity.
  - vm_compute. left. reflexivity.
  - reflexivity.
  - vm_compute. reflexivity.
  - reflexivity.
  - reflexivity.
Defined.

Lemma other_fingerprint_is_a_mismatch_next_time_witness :
  calls (verify (quiet None)
           (fs_after (verify (quiet None) ∅ (s2l "db.example") 7687
                        (s2l "AA:BB") (config_of (Some (fun _ _ _ => 2%Z)))))
           (s2l "db.example") 7687 (s2l "CC:DD")
           (config_of (Some (fun _ _ _ => 0%Z))))
  = [(host_label (s2l "db.example") 7687, s2l "CC:DD",
      NEO4J_HOST_VERIFICATION_MISMATCH)].
Proof.
  apply (other_fingerprint_is_a_mismatch_next_time 4096 parent_dir 2 1
           (quiet None) (quiet None) ∅ (s2l "db.example") 7687 (s2l "AA:BB")
           (s2l "CC:DD")
           (config_of (Some (fun _ _ _ => 2%Z)))
           (config_of (Some (fun _ _ _ => 0%Z)))
           (fun _ _ _ => 2%Z) known_certs
           db_example (s2l "AA:BB") NEO4J_HOST_VERIFICATION_UNRECOGNIZED).
  - reflexivity.
  - reflexivity.
  - reflexivity.
  - reflexivity.
  - reflexivity.
  - reflexivity.
  - vm_compute. lia.
  - vm_compute. exact I.
  - reflexivity.
  - reflexivity.
  - vm_compute. left. reflexivity.
  - reflexivity.
  - vm_compute. reflexivity.
  - reflexivity.
  - reflexivity.
  - discriminate.
Defined.

Lemma host_label_is_not_truncated_witness :
  host_label (s2l "db.example") 7687 = s2l "db.example" ++ s2l ":" ++ fmt_d 7687
  /\ 0 < length (s2l "db.example" ++ s2l ":" ++ fmt_d 7687)
       < NEO4J_MAX_HOST_LENGTH.
Proof.
  apply (host_label_is_not_truncated (s2l "db.example") 7687).
  - reflexivity.
  - split; [apply Z.leb_le|apply Z.ltb_lt]; reflexivity.
Defined.

Lemma host_label_is_injective_witness :
  s2l "db.example" = s2l "db.example" /\ 7687%Z = 7687%Z.
Proof.
  apply (host_label_is_injective (s2l "db.example") 7687 (s2l "db.example") 7687).
  - reflexivity.
  - reflexivity.
  - split; [apply Z.leb_le|apply Z.ltb_lt]; reflexivity.
  - split; [apply Z.leb_le|apply Z.ltb_lt]; reflexivity.
  - reflexivity.
Defined.

Lemma replace_succeeds_when_nothing_fails_witness :
  u_ret (replace (quiet_update (s2l "a1B2c3")) store_AABB known_certs
           db_example (s2l "CC:DD")) = 0%Z.
Proof.
  apply (replace_succeeds_when_nothing_fails 4096 parent_dir).
  - vm_compute. lia.
  - vm_compute. reflexivity.
Defined.

(** * The verdicts at concrete inputs *)

(** The scenario S3 of the specification. *)
Lemma known_fingerprint_is_verified_witness :
  verify (quiet None) store_AABB (s2l "db.example") 7687 (s2l "AA:BB")
    (config_of (Some (fun _ _ _ => 0%Z)))
  = {| ret := 0; calls := []; fs_after := store_AABB |}.
Proof.
  apply (known_fingerprint_is_verified 4096 parent_dir 2 1) with
    (file := known_certs) (content := db_example ++ s2l " AA:BB" ++ [LF])
    (sep := [SP]) (trail := [LF]).
  - reflexivity.
  - reflexivity.
  - vm_compute. reflexivity.
  - vm_compute. reflexivity.
  - discriminate.
  - reflexivity.
  - reflexivity.
  - reflexivity.
  - vm_compute. lia.
  - vm_compute. discriminate.
Defined.

(** C6 fails as stated.  The store holds one entry of the host, with a
    fingerprint of 60 bytes, and that fingerprint is presented: the lookup
    returns its first 59 bytes, so the call finds a mismatch, calls the
    callback and returns 1.  And of two entries of one host only the first
    counts: presenting the fingerprint of the second is a mismatch too. *)
Lemma known_fingerprint_of_60_bytes :
  let fp := repeat "A"%char 60 in
  let fs : fsys := {[ known_certs := db_example ++ [SP] ++ fp ++ [LF] ]} in
  entries_of db_example (db_example ++ [SP] ++ fp ++ [LF])
    = [db_example ++ [SP] ++ fp ++ [LF]]
  /\ verify (quiet None) fs (s2l "db.example") 7687 fp
       (config_of (Some (fun _ _ _ => 0%Z)))
     = {| ret := 1;
          calls := [(db_example, fp, NEO4J_HOST_VERIFICATION_MISMATCH)];
          fs_after := fs |}
  /\ verify (quiet None) store_two_entries (s2l "db.example") 7687
       (s2l "CC:DD") (config_of (Some (fun _ _ _ => 0%Z)))
     = {| ret := 1;
          calls := [(db_example, s2l "CC:DD", NEO4J_HOST_VERIFICATION_MISMATCH)];
          fs_after := store_two_entries |}.
Proof. repeat split; vm_compute; reflexivity. Qed.


